(** * fixer: a client for the foreign exchange rates API

    A shallow embedding of the Go package [fixer] (errors.go, fixer.go,
    client.go) together with the properties of its request and response
    pipeline.

    Conventions of the embedding:
    - a Go [string] is a [string] (a sequence of 8-bit characters);
    - a Go [error] result is an [option error], [None] being [nil];
    - a pointer result that may be [nil] is an [option];
    - [url.Values] (a [map[string][]string]) is a [gmap string (list string)];
    - the operations of the Go standard library whose inner working the
      package never looks at (URL parsing and printing, the JSON decoding of
      a whole response body) are the fields of the class [GoLib]; those it
      depends on (sorting, joining, formatting and parsing a date, decoding
      a JSON string) are functions of the model;
    - a [context.Context] only reaches the transport, where cancelling it
      shows as an error of the transport: the model leaves it out;
    - the HTTP client and the base URL of a client are values: a client
      built around a nil pointer is not a client of the model. *)

From Stdlib Require Import ZArith String Ascii List DecimalString.
From stdpp Require Import gmap strings list sorting.

Local Open Scope string_scope.
Local Open Scope Z_scope.

(** ** errors.go *)

(** The values an [error] can hold in this package: the four sentinels
    declared in errors.go, compared by identity in Go, and the errors that
    the standard library hands back (transport, URL, JSON and time
    parsing). Of those the model keeps the package they come from and a
    detail; it does not reproduce the text of their messages. *)
Inductive error : Type :=
  | ErrNilResponse
  | ErrUnexpectedStatus
  | ErrNotFound
  | ErrUnprocessableEntity
  | LibError (package : string) (detail : string).

Definition http_StatusOK : Z := 200.
Definition http_StatusNotFound : Z := 404.
Definition http_StatusUnprocessableEntity : Z := 422.

(** [http.Response], reduced to the two fields the package reads. *)
Record http_Response : Type := mkResponse {
  StatusCode : Z;
  Body : string
}.

(** [responseError], errors.go lines 28-43. *)
Definition responseError (resp : option http_Response) : option error :=
  match resp with
  | None => Some ErrNilResponse
  | Some r =>
      if StatusCode r =? http_StatusOK then None
      else if StatusCode r =? http_StatusNotFound then Some ErrNotFound
      else if StatusCode r =? http_StatusUnprocessableEntity
           then Some ErrUnprocessableEntity
      else Some ErrUnexpectedStatus
  end.

(** ** fixer.go: currencies *)

Definition Currency : Type := string.
Definition Currencies : Type := list Currency.

Definition SEK : Currency := "SEK".
Definition DKK : Currency := "DKK".
Definition USD : Currency := "USD".
Definition GBP : Currency := "GBP".
Definition EUR : Currency := "EUR".
Definition AUD : Currency := "AUD".

(** [sort.Strings]: the input in increasing order, the order of Go on
    strings being the bytewise lexicographic one, [String.le]. Go sorts in
    place with an unstable algorithm; on strings, where equal elements
    cannot be told apart, every sorting algorithm gives the same result. *)
Definition sort_Strings (l : list string) : list string :=
  merge_sort String.le l.

(** [strings.Join]. *)
Fixpoint strings_Join (elems : list string) (sep : string) : string :=
  match elems with
  | [] => ""
  | [x] => x
  | x :: rest => x +:+ sep +:+ strings_Join rest sep
  end.

(** [Currencies.String], fixer.go lines 97-107. The loop appends the code
    of every currency to [symbols], in order. *)
Definition Currencies_String (cs : Currencies) : string :=
  let symbols := foldl (fun symbols c => (symbols ++ [c])%list) [] cs in
  strings_Join (sort_Strings symbols) ",".

(** ** net/url: query values *)

Abbreviation Values := (gmap string (list string)).

(** [Values.Get]: the first value of the key, or the empty string. *)
Definition Values_Get (v : Values) (key : string) : string :=
  match v !! key with
  | Some (x :: _) => x
  | _ => ""
  end.

(** [Values.Set]: the key now has this one value. *)
Definition Values_Set (v : Values) (key value : string) : Values :=
  <[key := [value]]> v.

(** ** client.go: query builders *)

(** [Base], client.go lines 84-92. *)
Definition Base (c : Currency) : Values :=
  let v : Values := ∅ in
  let s := c in
  if decide (s ≠ "") then Values_Set v "base" s else v.

(** [Symbols], client.go lines 95-103. *)
Definition Symbols (cs : list Currency) : Values :=
  let v : Values := ∅ in
  let s := Currencies_String cs in
  if decide (s ≠ "") then Values_Set v "symbols" s else v.

(** ** time: instants, locations and calendar dates *)

(** [time.Location]: [lookup] gives, for an instant in Unix seconds, the
    offset in seconds east of UTC in use at that instant and the interval
    of instants [start, end) in which that offset stays in use. *)
Record Location : Type := mkLocation {
  lookup : Z -> Z * Z * Z
}.

Definition alpha : Z := - 2 ^ 63.
Definition omega : Z := 2 ^ 63 - 1.

(** [time.FixedZone] and [time.UTC]. *)
Definition time_FixedZone (offset : Z) : Location :=
  {| lookup := fun _ => (offset, alpha, omega) |}.
Definition time_UTC : Location := time_FixedZone 0.

(** [time.Time]: an instant (seconds since the Unix epoch and nanoseconds
    within the second) and the location it is presented in. Go stores the
    seconds in 64 bits; the model does not bound them. *)
Record time_Time : Type := mkTime {
  unixSec : Z;
  nsec : Z;
  loc : Location
}.

Definition secondsPerDay : Z := 86400.

(** The zero value [time.Time{}]: January 1, year 1, 00:00:00 UTC. *)
Definition time_zero : time_Time :=
  {| unixSec := -62135596800; nsec := 0; loc := time_UTC |}.

(** [Time.UTC] and [Time.In]: the same instant in another location. *)
Definition Time_In (t : time_Time) (l : Location) : time_Time :=
  {| unixSec := unixSec t; nsec := nsec t; loc := l |}.
Definition Time_UTC (t : time_Time) : time_Time := Time_In t time_UTC.

Definition isLeap (year : Z) : bool :=
  (year mod 4 =? 0) && (negb (year mod 100 =? 0) || (year mod 400 =? 0)).

(** [daysIn]: the number of days of a month of a year (0 for a number that
    is not a month). *)
Definition daysIn (m year : Z) : Z :=
  if (m =? 2) && isLeap year then 29
  else if m =? 2 then 28
  else if (m =? 4) || (m =? 6) || (m =? 9) || (m =? 11) then 30
  else if (1 <=? m) && (m <=? 12) then 31
  else 0.

(** The number of days from 1970-01-01 to the day [year]-[m]-[d] of the
    proleptic Gregorian calendar, for a month from 1 to 12. *)
Definition daysSinceEpoch (year m d : Z) : Z :=
  let y := if m <=? 2 then year - 1 else year in
  let era := y / 400 in
  let yoe := y - era * 400 in
  let mp := (m + 9) mod 12 in
  let doy := (153 * mp + 2) / 5 + d - 1 in
  let doe := yoe * 365 + yoe / 4 - yoe / 100 + doy in
  era * 146097 + doe - 719468.

(** The calendar date (year, month, day) of a number of days since
    1970-01-01. *)
Definition civilDate (days : Z) : Z * Z * Z :=
  let z := days + 719468 in
  let era := z / 146097 in
  let doe := z - era * 146097 in
  let yoe := (doe - doe / 1460 + doe / 36524 - doe / 146096) / 365 in
  let y := yoe + era * 400 in
  let doy := doe - (365 * yoe + yoe / 4 - yoe / 100) in
  let mp := (5 * doy + 2) / 153 in
  let d := doy - (153 * mp + 2) / 5 + 1 in
  let m := if mp <? 10 then mp + 3 else mp - 9 in
  (if m <=? 2 then y + 1 else y, m, d).

(** The seconds of the wall clock of [t] in its own location, counted from
    1970-01-01 00:00:00 of that wall clock (Go: [t.abs()], up to the choice
    of the origin). *)
Definition Time_abs (t : time_Time) : Z :=
  unixSec t + (lookup (loc t) (unixSec t)).1.1.

(** [Time.Date]: year, month and day of [t] in the location of [t]. *)
Definition Time_Date (t : time_Time) : Z * Z * Z :=
  civilDate (Time_abs t / secondsPerDay).

(** [Time.Clock]: hour, minute and second of [t] in the location of [t]. *)
Definition Time_Clock (t : time_Time) : Z * Z * Z :=
  let s := Time_abs t mod secondsPerDay in
  (s / 3600, (s mod 3600) / 60, s mod 60).

(** [time.Date], for a month from 1 to 12 and fields in their ranges (Go
    also normalises fields out of range, which no caller here needs). *)
Definition time_Date (year m d hour min sec ns : Z) (l : Location)
  : time_Time :=
  let unix := daysSinceEpoch year m d * secondsPerDay
              + hour * 3600 + min * 60 + sec in
  let '(offset, start, end_) := lookup l unix in
  let unix :=
    if offset =? 0 then unix
    else
      let utc := unix - offset in
      let offset :=
        if (utc <? start) || (end_ <=? utc) then (lookup l utc).1.1
        else offset in
      unix - offset in
  {| unixSec := unix; nsec := ns; loc := l |}.

(** *** Formatting with the layout 2006-01-02 *)

Definition digitChar (n : Z) : ascii :=
  ascii_of_N (48 + Z.to_N n).

(** The decimal digits of a number that is not negative. *)
Definition digits (u : Z) : string :=
  NilZero.string_of_uint (N.to_uint (Z.to_N u)).

Fixpoint zeros (n : nat) : string :=
  match n with
  | O => ""
  | S n' => String "0" (zeros n')
  end.

(** [appendInt]: the decimal form of [x], padded with zeros to [width]
    digits, after a minus sign when [x] is negative. *)
Definition appendInt (x : Z) (width : nat) : string :=
  let u := Z.abs x in
  let ds := digits u in
  (if x <? 0 then "-" else "")
    +:+ zeros (width - String.length ds) +:+ ds.

(** [Time.Format] with the layout 2006-01-02: the long year, the month
    and the day of [Time.Date], each written by [appendInt]. *)
Definition Time_Format_20060102 (t : time_Time) : string :=
  let '(year, month, day) := Time_Date t in
  appendInt year 4 +:+ "-" +:+ appendInt month 2 +:+ "-" +:+ appendInt day 2.

(** *** Parsing with the layout 2006-01-02 *)

Definition isDigit (c : ascii) : bool :=
  (48 <=? N_of_ascii c)%N && (N_of_ascii c <=? 57)%N.

Definition digitVal (c : ascii) : Z := Z.of_N (N_of_ascii c) - 48.

(** [getnum] with [fixed] set: exactly two digits. *)
Definition getnum2 (value : string) : option (Z * string) :=
  match value with
  | String a (String b rest) =>
      if isDigit a && isDigit b
      then Some (digitVal a * 10 + digitVal b, rest)
      else None
  | _ => None
  end.

(** The long year of the layout: exactly four digits. *)
Definition getyear4 (value : string) : option (Z * string) :=
  match value with
  | String a (String b (String c (String d rest))) =>
      if isDigit a && isDigit b && isDigit c && isDigit d
      then Some (((digitVal a * 10 + digitVal b) * 10 + digitVal c) * 10
                 + digitVal d, rest)
      else None
  | _ => None
  end.

(** [skip] for the one character that separates the fields. *)
Definition skipHyphen (value : string) : option string :=
  match value with
  | String c rest => if Ascii.eqb c "-" then Some rest else None
  | _ => None
  end.

(** The fields that [time.Parse] reads from [value] under the layout
    2006-01-02: the year, then the month and the day, which must lie in
    1..12 and in 1..[daysIn]; nothing may follow the day. *)
Definition parseFields (value : string) : option (Z * Z * Z) :=
  match getyear4 value with
  | None => None
  | Some (year, value) =>
  match skipHyphen value with
  | None => None
  | Some value =>
  match getnum2 value with
  | None => None
  | Some (month, value) =>
  match skipHyphen value with
  | None => None
  | Some value =>
  match getnum2 value with
  | None => None
  | Some (day, value) =>
      if negb (String.eqb value "") then None
      else if (month <=? 0) || (12 <? month) then None
      else if (day <? 1) || (daysIn month year <? day) then None
      else Some (year, month, day)
  end end end end end.

(** [time.ParseInLocation] with the layout 2006-01-02: on success the
    date read at 00:00:00 in [l]; on failure the zero time and an error. *)
Definition time_ParseInLocation_20060102 (value : string) (l : Location)
  : time_Time * option error :=
  match parseFields value with
  | Some (year, month, day) =>
      (time_Date year month day 0 0 0 0 l, None)
  | None => (time_zero, Some (LibError "time" value))
  end.

(** ** encoding/json: decoding into a string *)

Definition byteOf (n : Z) : ascii := ascii_of_N (Z.to_N n).

Definition isSpace (c : ascii) : bool :=
  let n := N_of_ascii c in
  ((n =? 32) || (n =? 9) || (n =? 13) || (n =? 10))%N.

Fixpoint skipSpace (s : string) : string :=
  match s with
  | String c rest => if isSpace c then skipSpace rest else s
  | "" => ""
  end.

Fixpoint allSpace (s : string) : bool :=
  match s with
  | String c rest => isSpace c && allSpace rest
  | "" => true
  end.

Definition hexVal (c : ascii) : option Z :=
  let n := Z.of_N (N_of_ascii c) in
  if (48 <=? n) && (n <=? 57) then Some (n - 48)
  else if (97 <=? n) && (n <=? 102) then Some (n - 97 + 10)
  else if (65 <=? n) && (n <=? 70) then Some (n - 65 + 10)
  else None.

(** [getu4]: the code unit of a backslash, the letter u and four
    hexadecimal digits at the start of [s]. *)
Definition getu4 (s : string) : option Z :=
  match s with
  | String b (String u (String h1 (String h2 (String h3 (String h4 _))))) =>
      if Ascii.eqb b "\" && Ascii.eqb u "u" then
        match hexVal h1, hexVal h2, hexVal h3, hexVal h4 with
        | Some a, Some b, Some c, Some d =>
            Some (((a * 16 + b) * 16 + c) * 16 + d)
        | _, _, _, _ => None
        end
      else None
  | _ => None
  end.

Definition RuneError : Z := 0xFFFD.

Definition isSurrogate (r : Z) : bool := (0xD800 <=? r) && (r <? 0xE000).

(** [utf16.DecodeRune]. *)
Definition utf16_DecodeRune (r1 r2 : Z) : Z :=
  if (0xD800 <=? r1) && (r1 <? 0xDC00) && (0xDC00 <=? r2) && (r2 <? 0xE000)
  then Z.lor (Z.shiftl (r1 - 0xD800) 10) (r2 - 0xDC00) + 0x10000
  else RuneError.

(** [utf8.EncodeRune]. *)
Definition utf8_EncodeRune (r : Z) : string :=
  let r := if (r <? 0) || (0x10FFFF <? r) || isSurrogate r
           then RuneError else r in
  let cont (x : Z) := byteOf (Z.lor 0x80 (Z.land x 0x3F)) in
  if r <? 0x80 then String (byteOf r) ""
  else if r <? 0x800 then
    String (byteOf (Z.lor 0xC0 (Z.shiftr r 6))) (String (cont r) "")
  else if r <? 0x10000 then
    String (byteOf (Z.lor 0xE0 (Z.shiftr r 12)))
      (String (cont (Z.shiftr r 6)) (String (cont r) ""))
  else
    String (byteOf (Z.lor 0xF0 (Z.shiftr r 18)))
      (String (cont (Z.shiftr r 12))
         (String (cont (Z.shiftr r 6)) (String (cont r) ""))).

(** For the first byte of a UTF-8 sequence of several bytes: its size and
    the range accepted for the second byte. *)
Definition utf8_first (b0 : Z) : option (nat * Z * Z) :=
  if (0xC2 <=? b0) && (b0 <=? 0xDF) then Some (2%nat, 0x80, 0xBF)
  else if b0 =? 0xE0 then Some (3%nat, 0xA0, 0xBF)
  else if b0 =? 0xED then Some (3%nat, 0x80, 0x9F)
  else if (0xE1 <=? b0) && (b0 <=? 0xEF) then Some (3%nat, 0x80, 0xBF)
  else if b0 =? 0xF0 then Some (4%nat, 0x90, 0xBF)
  else if (0xF1 <=? b0) && (b0 <=? 0xF3) then Some (4%nat, 0x80, 0xBF)
  else if b0 =? 0xF4 then Some (4%nat, 0x80, 0x8F)
  else None.

Fixpoint allCont (n : nat) (s : string) : bool :=
  match n, s with
  | O, _ => true
  | S n', String c rest =>
      let x := Z.of_N (N_of_ascii c) in
      (0x80 <=? x) && (x <=? 0xBF) && allCont n' rest
  | S _, "" => false
  end.

(** The part of [utf8.DecodeRune] that the decoder needs: the size of
    the valid sequence of several bytes that [s] starts with, if any. *)
Definition utf8_seqLen (s : string) : option nat :=
  match s with
  | String b0 (String b1 rest) =>
      match utf8_first (Z.of_N (N_of_ascii b0)) with
      | Some (size, lo, hi) =>
          let x := Z.of_N (N_of_ascii b1) in
          if (lo <=? x) && (x <=? hi) && allCont (size - 2) rest
          then Some size else None
      | None => None
      end
  | _ => None
  end.

Fixpoint takeBytes (n : nat) (s : string) : string :=
  match n, s with
  | S n', String c rest => String c (takeBytes n' rest)
  | _, _ => ""
  end.

Fixpoint dropBytes (n : nat) (s : string) : string :=
  match n, s with
  | S n', String _ rest => dropBytes n' rest
  | _, _ => s
  end.

Definition escapeChar (e : ascii) : option ascii :=
  let n := N_of_ascii e in
  if (n =? 34)%N then Some e                      (* quote *)
  else if (n =? 92)%N then Some e                 (* backslash *)
  else if (n =? 47)%N then Some e                 (* slash *)
  else if (n =? 98)%N then Some (byteOf 8)        (* b *)
  else if (n =? 102)%N then Some (byteOf 12)      (* f *)
  else if (n =? 110)%N then Some (byteOf 10)      (* n *)
  else if (n =? 114)%N then Some (byteOf 13)      (* r *)
  else if (n =? 116)%N then Some (byteOf 9)       (* t *)
  else None.

Definition emit (out : string) (r : option (string * string))
  : option (string * string) :=
  match r with
  | Some (s, tail) => Some (out +:+ s, tail)
  | None => None
  end.

(** The scanner and [unquote] of encoding/json on the inside of a string
    literal, [s] starting after the opening quote: the decoded content and
    what follows the closing quote, or [None] where the scanner reports a
    syntax error. [skip] counts characters of an escape that has already
    been decoded. Bytes that are not valid UTF-8 come out as U+FFFD. *)
Fixpoint unquoteFrom (skip : nat) (s : string) : option (string * string) :=
  match s with
  | "" => None
  | String c rest =>
      match skip with
      | S k => unquoteFrom k rest
      | O =>
          let n := Z.of_N (N_of_ascii c) in
          if n =? 34 then Some ("", rest)
          else if n =? 92 then
            match rest with
            | "" => None
            | String e _ =>
                match escapeChar e with
                | Some ch => emit (String ch "") (unquoteFrom 1 rest)
                | None =>
                    match getu4 s with
                    | None => None
                    | Some rr =>
                        if isSurrogate rr then
                          let dec :=
                            match getu4 (dropBytes 6 s) with
                            | Some rr1 => utf16_DecodeRune rr rr1
                            | None => RuneError
                            end in
                          if dec =? RuneError
                          then emit (utf8_EncodeRune RuneError)
                                    (unquoteFrom 5 rest)
                          else emit (utf8_EncodeRune dec)
                                    (unquoteFrom 11 rest)
                        else emit (utf8_EncodeRune rr) (unquoteFrom 5 rest)
                    end
                end
            end
          else if n <? 32 then None
          else if n <? 128 then emit (String c "") (unquoteFrom 0 rest)
          else
            match utf8_seqLen s with
            | Some size =>
                emit (takeBytes size s) (unquoteFrom (size - 1) rest)
            | None => emit (utf8_EncodeRune RuneError) (unquoteFrom 0 rest)
            end
      end
  end.

(** What [json.Unmarshal] finds in its input, as far as decoding into a
    string can tell: a string literal (with its content), the literal
    null, or anything else, which is either another JSON value or no JSON
    at all. White space may surround the value. *)
Inductive jsonValue : Type :=
  | JSONString (s : string)
  | JSONNull
  | JSONOther.

Definition json_scan (b : string) : jsonValue :=
  match skipSpace b with
  | "" => JSONOther
  | String c rest =>
      if (N_of_ascii c =? 34)%N then
        match unquoteFrom 0 rest with
        | Some (s, tail) => if allSpace tail then JSONString s else JSONOther
        | None => JSONOther
        end
      else if String.eqb (takeBytes 4 (String c rest)) "null"
              && allSpace (dropBytes 4 (String c rest))
      then JSONNull
      else JSONOther
  end.

(** [json.Unmarshal(b, &value)] for a [value] of type string: a string
    literal is stored, null leaves [value] as it is without an error, and
    everything else is an error (a syntax error or a type error, which the
    model does not tell apart) and leaves [value] as it is. *)
Definition json_Unmarshal_string (b : string) (value : string)
  : string * option error :=
  match json_scan b with
  | JSONString s => (s, None)
  | JSONNull => (value, None)
  | JSONOther => (value, Some (LibError "json" b))
  end.

(** ** fixer.go: dates and responses *)

(** [Date] wraps [time.Time]. *)
Record Date : Type := mkDate {
  Date_Time : time_Time
}.

Definition Date_zero : Date := mkDate time_zero.

(** [Date.UnmarshalJSON], fixer.go lines 62-78. The receiver [d] is a
    pointer: the function gives back the [Date] it leaves behind the
    pointer, and the error. *)
Definition Date_UnmarshalJSON (d : Date) (b : string) : Date * option error :=
  let value := "" in
  let '(value, err) := json_Unmarshal_string b value in
  match err with
  | Some err => (d, Some err)
  | None =>
      let '(t, err) := time_ParseInLocation_20060102 value time_UTC in
      match err with
      | Some err => (d, Some err)
      | None => (mkDate t, None)
      end
  end.

(** [Rates] maps a currency to a float64, kept here as its 64 bits;
    [Links] maps a label to a URL. *)
Abbreviation Rates := (gmap Currency Z).
Abbreviation Links := (gmap string string).

Record Response : Type := mkFixerResponse {
  Resp_Base : Currency;
  Resp_Date : Date;
  Resp_Rates : Rates;
  Resp_Links : Links
}.

(** ** net/url and net/http: the types the client handles *)

Record URL : Type := mkURL {
  Scheme : string;
  Host : string;
  Path : string;
  RawQuery : string
}.

Abbreviation Header := (gmap string (list string)).

(** [Header.Add]: one more value for the key. *)
Definition Header_Add (h : Header) (key value : string) : Header :=
  <[key := (default [] (h !! key) ++ [value])%list]> h.

Record http_Request : Type := mkRequest {
  Req_Method : string;
  Req_URL : URL;
  Req_Header : Header
}.

(** [http.Client]: its timeout in nanoseconds and what [Do] answers to a
    request. By the contract of [Do] a nil error comes with a response and
    an error leaves no response to read: the answer is one or the other. *)
Record http_Client : Type := mkHTTPClient {
  Timeout : Z;
  Do : http_Request -> http_Response + error
}.

(** The operations of the Go standard library that the client calls and
    whose result it only passes on. [json_Decode] is
    [json.NewDecoder(body).Decode(&r)] for a zero [Response] [r]: what [r]
    holds afterwards and the error. *)
Class GoLib : Type := {
  url_Parse : string -> URL + error;
  url_String : URL -> string;
  url_ResolveReference : URL -> URL -> URL;
  Values_Encode : Values -> string;
  http_NewRequest : string -> string -> http_Request + error;
  http_DefaultDo : http_Request -> http_Response + error;
  json_Decode : string -> Response * option error
}.

(** ** client.go: the client *)

Record Client : Type := mkClient {
  httpClient : http_Client;
  baseURL : URL;
  accessKey : string;
  userAgent : string
}.

Definition second : Z := 1000000000.


Definition BaseURL `{GoLib} (rawurl : string) : Client -> Client :=
  fun c =>
    match url_Parse rawurl with
    | inl u =>
        {| httpClient := httpClient c; baseURL := u;
           accessKey := accessKey c; userAgent := userAgent c |}
    | inr _ => c
    end.

Definition AccessKey (ak : string) : Client -> Client :=
  fun c =>
    {| httpClient := httpClient c; baseURL := baseURL c;
       accessKey := ak; userAgent := userAgent c |}.


(** [NewClient], client.go lines 32-51. *)
Definition NewClient `{GoLib} (options : list (Client -> Client)) : Client :=
  let c :=
    {| httpClient := {| Timeout := 20 * second; Do := http_DefaultDo |};
       baseURL := {| Scheme := "http"; Host := "data.fixer.io";
                     Path := "/api"; RawQuery := "" |};
       accessKey := "";
       userAgent := "fixer/client.go (https://github.com/peterhellberg/fixer)"
    |} in
  foldl (fun c f => f c) c options.

(** [Client.date], client.go lines 115-117. *)
Definition date (c : Client) (t : time_Time) : string :=
  Time_Format_20060102 t.

(** [Client.query], client.go lines 138-152. *)
Definition query (c : Client) (attributes : list Values) : Values :=
  foldl
    (fun (v : Values) (a : Values) =>
       let v :=
         let base := Values_Get a "base" in
         if decide (base ≠ "") then Values_Set v "base" base else v in
       let v :=
         let symbols := Values_Get a "symbols" in
         if decide (symbols ≠ "") then Values_Set v "symbols" symbols else v in
       v)
    (∅ : Values) attributes.

(** Lines 157-159 of [Client.request]: the access key, when there is one,
    is set in the query the caller passed. *)
Definition withAccessKey (c : Client) (query : Values) : Values :=
  if decide (accessKey c ≠ "")
  then Values_Set query "access_key" (accessKey c)
  else query.

(** [Client.request], client.go lines 154-181. *)
Definition request `{GoLib} (c : Client) (path : string) (query : Values)
  : http_Request + error :=
  let rawurl := Path (baseURL c) +:+ path in
  let query := withAccessKey c query in
  let rawurl :=
    if decide (0 < size query)%nat
    then rawurl +:+ "?" +:+ Values_Encode query
    else rawurl in
  match url_Parse rawurl with
  | inr err => inr err
  | inl rel =>
      match http_NewRequest "GET"
              (url_String (url_ResolveReference (baseURL c) rel)) with
      | inr err => inr err
      | inl req =>
          let h := Header_Add (Req_Header req) "Accept" "application/json" in
          let h := Header_Add h "User-Agent" (userAgent c) in
          inl {| Req_Method := Req_Method req; Req_URL := Req_URL req;
                 Req_Header := h |}
      end
  end.

(** What a call does to the outside, in order. *)
Inductive event : Type :=
  | EvSend (req : http_Request)
  | EvDecode (body : string)
  | EvDiscard
  | EvClose.

(** [Client.do], client.go lines 183-204: the two results of the Go
    function and the events of the call. The deferred function, which
    discards up to 64 bytes of the body and closes it, runs when the
    function returns, once a response has been received. *)
Definition do `{GoLib} (c : Client) (req : http_Request)
  : (option Response * option error) * list event :=
  match Do (httpClient c) req with
  | inr err => ((None, Some err), [EvSend req])
  | inl resp =>
      match responseError (Some resp) with
      | Some err => ((None, Some err), [EvSend req; EvDiscard; EvClose])
      | None =>
          let '(r, err) := json_Decode (Body resp) in
          match err with
          | Some err =>
              ((None, Some err),
               [EvSend req; EvDecode (Body resp); EvDiscard; EvClose])
          | None =>
              ((Some r, None),
               [EvSend req; EvDecode (Body resp); EvDiscard; EvClose])
          end
      end
  end.

(** How a call of [get], [Latest] or [At] ends: it returns its two
    results, or it panics. *)
Inductive outcome : Type :=
  | Return (r : option Response) (err : option error)
  | Panic.

(** [Client.get], client.go lines 119-136. Setting [r.Links] through a
    nil [r] would panic. *)
Definition get `{GoLib} (c : Client) (path : string) (query : Values)
  : outcome * list event :=
  match request c path query with
  | inr err => (Return None (Some err), [])
  | inl req =>
      let '((r, err), evs) := do c req in
      match err with
      | Some err => (Return None (Some err), evs)
      | None =>
          match r with
          | None => (Panic, evs)
          | Some r =>
              let links : Links :=
                <["self" := url_String (Req_URL req)]>
                  (<["base" := url_String (baseURL c)]> ∅) in
              (Return
                 (Some {| Resp_Base := Resp_Base r; Resp_Date := Resp_Date r;
                          Resp_Rates := Resp_Rates r; Resp_Links := links |})
                 None, evs)
          end
      end
  end.

(** [Client.Latest] and [Client.At], client.go lines 105-113. *)
Definition Latest `{GoLib} (c : Client) (attributes : list Values)
  : outcome * list event :=
  get c "/latest" (query c attributes).

Definition At `{GoLib} (c : Client) (t : time_Time) (attributes : list Values)
  : outcome * list event :=
  get c ("/" +:+ date c t) (query c attributes).

(** ** client.go: the clients of the package

    [FixerClient], [ExratesClient] and [DefaultClient], client.go lines
    14-21, as they are when the package has been initialised, [getenv]
    being [os.Getenv]; and the functions [Latest] and [At] of the package,
    lines 206-214, which call the default client. *)
Definition FixerClient `{GoLib} (getenv : string -> string) : Client :=
  NewClient [AccessKey (getenv "FIXER_ACCESS_KEY")].

Definition ExratesClient `{GoLib} : Client :=
  NewClient [BaseURL "https://api.exchangeratesapi.io"].

Definition DefaultClient `{GoLib} (getenv : string -> string) : Client :=
  FixerClient getenv.

Definition fixer_Latest `{GoLib} (getenv : string -> string)
    (attributes : list Values) : outcome * list event :=
  Latest (DefaultClient getenv) attributes.

Definition fixer_At `{GoLib} (getenv : string -> string) (t : time_Time)
    (attributes : list Values) : outcome * list event :=
  At (DefaultClient getenv) t attributes.

(** ** client_test.go: the test server and its client

    A URL library that is enough for the URLs of the tests, the handler of
    [testServerAndClient], and a decoder for the bodies it writes. *)
Module Test.

Definition quote : string := String (byteOf 34) "".
Definition quoted (s : string) : string := quote +:+ s +:+ quote.

(** [s] up to the first [c], and what follows that [c]. *)
Fixpoint cutAt (c : ascii) (s : string) : string * option string :=
  match s with
  | "" => ("", None)
  | String x rest =>
      if Ascii.eqb x c then ("", Some rest)
      else let '(a, b) := cutAt c rest in (String x a, b)
  end.

Definition parse (rawurl : string) : URL + error :=
  if String.prefix ":" rawurl
  then inr (LibError "url" "missing protocol scheme")
  else
    let '(main, q) := cutAt "?" rawurl in
    let rawquery := default "" q in
    if String.prefix "http://" main then
      let '(host, p) := cutAt "/" (dropBytes 7 main) in
      inl {| Scheme := "http"; Host := host;
             Path := match p with Some p => "/" +:+ p | None => "" end;
             RawQuery := rawquery |}
    else
      inl {| Scheme := ""; Host := ""; Path := main; RawQuery := rawquery |}.

Definition requestURI (u : URL) : string :=
  Path u +:+ (if decide (RawQuery u = "") then "" else "?" +:+ RawQuery u).

Definition print (u : URL) : string :=
  (if decide (Scheme u = "") then "" else Scheme u +:+ "://")
    +:+ Host u +:+ requestURI u.

Definition resolve (base rel : URL) : URL :=
  if decide (Scheme rel = "") then
    {| Scheme := Scheme base; Host := Host base;
       Path := Path rel; RawQuery := RawQuery rel |}
  else rel.

(** Query escaping, for the one character of the tests that needs it. *)
Fixpoint escape (s : string) : string :=
  match s with
  | "" => ""
  | String c rest =>
      (if Ascii.eqb c "," then "%2C" else String c "") +:+ escape rest
  end.

Definition encodeKey (v : Values) (key : string) : list string :=
  (fun x => key +:+ "=" +:+ escape x) <$> default [] (v !! key).

(** [Values.Encode]: the pairs, sorted by key. *)
Definition encode (v : Values) : string :=
  strings_Join
    (mbind (encodeKey v) (sort_Strings (fst <$> map_to_list v))) "&".

Definition newRequest (method urlStr : string) : http_Request + error :=
  match parse urlStr with
  | inl u => inl {| Req_Method := method; Req_URL := u; Req_Header := ∅ |}
  | inr err => inr err
  end.

(** What the handler encodes: the base, the date and the rates. *)
Record payload : Type := mkPayload {
  p_base : Currency;
  p_date : string;
  p_rates : list (Currency * (string * Z))
}.

Definition encodeRates (rs : list (Currency * (string * Z))) : string :=
  strings_Join ((fun r => quoted r.1 +:+ ":" +:+ r.2.1) <$> rs) ",".

Definition encodePayload (p : payload) : string :=
  "{" +:+ quoted "base" +:+ ":" +:+ quoted (p_base p)
      +:+ "," +:+ quoted "date" +:+ ":" +:+ quoted (p_date p)
      +:+ (match p_rates p with
           | [] => ""
           | rs => "," +:+ quoted "rates" +:+ ":{" +:+ encodeRates rs +:+ "}"
           end)
      +:+ "}".

Definition today : string := "2016-02-12".

Definition latestEUR : payload := mkPayload EUR today [].
Definition latestSEK : payload :=
  mkPayload SEK today
    [(GBP, ("0.088628", 4591050741107558405));
     (USD, ("0.1149", 4592943838218122848))].
Definition at20120328 : payload := mkPayload EUR "2012-03-28" [].

Definition notJSON : string := "NOT JSON".

(** The handler of the test server, on the request line it receives. *)
Definition handler (uri : string) : http_Response :=
  if String.eqb uri "/latest"
  then mkResponse 200 (encodePayload latestEUR)
  else if String.eqb uri "/latest?base=SEK&symbols=GBP%2CUSD"
  then mkResponse 200 (encodePayload latestSEK)
  else if String.eqb uri "/2012-03-28"
  then mkResponse 200 (encodePayload at20120328)
  else if String.eqb uri "/1999-12-31"
  then mkResponse http_StatusUnprocessableEntity ""
  else if String.eqb uri "/2000-01-01"
  then mkResponse 200 notJSON
  else mkResponse http_StatusNotFound "".

Definition server (req : http_Request) : http_Response + error :=
  inl (handler (requestURI (Req_URL req))).

Definition zeroResponse : Response :=
  {| Resp_Base := ""; Resp_Date := Date_zero;
     Resp_Rates := ∅; Resp_Links := ∅ |}.

(** The decoder, on the bodies that the handler writes: the fields of the
    payload, the date going through [Date_UnmarshalJSON]. *)
Definition decodePayload (p : payload) : Response * option error :=
  let '(d, err) := Date_UnmarshalJSON Date_zero (quoted (p_date p)) in
  ({| Resp_Base := p_base p; Resp_Date := d;
      Resp_Rates := list_to_map ((fun r => (r.1, r.2.2)) <$> p_rates p);
      Resp_Links := ∅ |}, err).

Definition decode (body : string) : Response * option error :=
  match
    List.find (fun p => String.eqb (encodePayload p) body)
      [latestEUR; latestSEK; at20120328]
  with
  | Some p => decodePayload p
  | None => (zeroResponse, Some (LibError "json" body))
  end.

#[global] Instance lib : GoLib := {|
  url_Parse := parse;
  url_String := print;
  url_ResolveReference := resolve;
  Values_Encode := encode;
  http_NewRequest := newRequest;
  http_DefaultDo := server;
  json_Decode := decode
|}.

(** The response of an outcome, the zero response when there is none. *)
Definition resultOf (o : outcome * list event) : Response :=
  match o.1 with
  | Return (Some r) _ => r
  | _ => zeroResponse
  end.

Definition serverURL : string := "http://127.0.0.1:8080".

(** [testServerAndClient]: a client whose base URL is that of the server. *)
Definition client : Client := NewClient [BaseURL serverURL].

End Test.

(** ** The words of the specification *)

(** The table of section 4.6, on the status code alone ([None]: there is
    no response). *)
Definition spec_classify (status : option Z) : option error :=
  match status with
  | None => Some ErrNilResponse
  | Some 200 => None
  | Some 404 => Some ErrNotFound
  | Some 422 => Some ErrUnprocessableEntity
  | Some _ => Some ErrUnexpectedStatus
  end.

(** The last value of [key] that is not empty among the partial sets. *)
Definition spec_lastNonEmpty (key : string) (attributes : list Values)
  : option string :=
  last (filter (fun s => s ≠ "") ((fun a => Values_Get a key) <$> attributes)).

(** The form YYYY-MM-DD: four digits of the year, two of the month and two
    of the day, with hyphens between. *)
Definition spec_yyyy_mm_dd (y m d : Z) : string :=
  String (digitChar (y / 1000)) (String (digitChar (y / 100 mod 10))
    (String (digitChar (y / 10 mod 10)) (String (digitChar (y mod 10))
      (String "-" (String (digitChar (m / 10)) (String (digitChar (m mod 10))
        (String "-" (String (digitChar (d / 10))
          (String (digitChar (d mod 10)) ""))))))))).

(** A calendar date that the form YYYY-MM-DD can name. *)
Definition spec_validDate (y m d : Z) : Prop :=
  0 <= y <= 9999 /\ 1 <= m <= 12 /\ 1 <= d <= daysIn m y.

(** The date of [t] projected to UTC, in the form of the layout. *)
Definition spec_utcDate (t : time_Time) : string :=
  Time_Format_20060102 (Time_UTC t).

(** The two calls of the client. *)
Inductive call : Type :=
  | CallLatest (attributes : list Values)
  | CallAt (t : time_Time) (attributes : list Values).

Definition run `{GoLib} (c : Client) (k : call) : outcome * list event :=
  match k with
  | CallLatest attributes => Latest c attributes
  | CallAt t attributes => At c t attributes
  end.

Definition callPath (c : Client) (k : call) : string :=
  match k with
  | CallLatest _ => "/latest"
  | CallAt t _ => "/" +:+ date c t
  end.

Definition callAttributes (k : call) : list Values :=
  match k with
  | CallLatest attributes => attributes
  | CallAt _ attributes => attributes
  end.

(** ** Helpers of the proofs *)

(** A check that holds on every number of a range, by computation. *)
Fixpoint forallFrom (P : Z -> bool) (z : Z) (n : nat) : bool :=
  match n with
  | O => true
  | S n' => P z && forallFrom P (z + 1) n'
  end.

(** A number below 10000 in four digits, and one below 100 in two. *)
Definition fourDigits (y : Z) : string :=
  String (digitChar (y / 1000)) (String (digitChar (y / 100 mod 10))
    (String (digitChar (y / 10 mod 10)) (String (digitChar (y mod 10)) ""))).

Definition twoDigits (m : Z) : string :=
  String (digitChar (m / 10)) (String (digitChar (m mod 10)) "").

(** The last of the raw URLs that parses, parsed. *)
Definition spec_lastParsed `{GoLib} (rawurls : list string) : option URL :=
  last (omap (fun s => match url_Parse s with
                       | inl u => Some u
                       | inr _ => None
                       end) rawurls).

(** A byte that a JSON string literal holds as it is: printable ASCII
    other than the quote and the backslash. *)
Definition plainByte (c : ascii) : bool :=
  let n := Z.of_N (N_of_ascii c) in
  (32 <=? n) && (n <? 128) && negb (n =? 34) && negb (n =? 92).

Fixpoint allPlain (s : string) : bool :=
  match s with
  | "" => true
  | String c rest => plainByte c && allPlain rest
  end.

(** The JSON string literal of a content of plain bytes. *)
Definition jsonString (s : string) : string :=
  String (byteOf 34) (s +:+ String (byteOf 34) "").

(** 23:30 on 2012-03-28 on a wall clock two hours behind UTC. *)
Definition lateEvening : time_Time :=
  time_Date 2012 3 28 23 30 0 0 (time_FixedZone (-7200)).

(** * Properties *)

(** ** Error classification *)

(** C1: [responseError] maps a response by its status code alone: no
    response gives [ErrNilResponse], 200 no error, 404 [ErrNotFound], 422
    [ErrUnprocessableEntity] and every other code, 0 included,
    [ErrUnexpectedStatus]. The function is total and the body plays no
    part. *)
Theorem responseError_by_status :
  (forall resp : option http_Response,
      responseError resp = spec_classify (StatusCode <$> resp))
  /\ responseError None = Some ErrNilResponse
  /\ (forall body, responseError (Some (mkResponse 200 body)) = None)
  /\ (forall body,
        responseError (Some (mkResponse 404 body)) = Some ErrNotFound)
  /\ (forall body,
        responseError (Some (mkResponse 422 body))
        = Some ErrUnprocessableEntity)
  /\ (forall body,
        responseError (Some (mkResponse 0 body)) = Some ErrUnexpectedStatus)
  /\ (forall code body,
        code <> 200 -> code <> 404 -> code <> 422 ->
        responseError (Some (mkResponse code body))
        = Some ErrUnexpectedStatus).
Proof.
  split; [|repeat split].
  - intros [[code body]|]; [|reflexivity].
    cbn [responseError fmap option_fmap option_map StatusCode].
    unfold http_StatusOK, http_StatusNotFound, http_StatusUnprocessableEntity.
    destruct (code =? 200) eqn:E200; [apply Z.eqb_eq in E200; by subst|].
    destruct (code =? 404) eqn:E404; [apply Z.eqb_eq in E404; by subst|].
    destruct (code =? 422) eqn:E422; [apply Z.eqb_eq in E422; by subst|].
    apply Z.eqb_neq in E200, E404, E422.
    unfold spec_classify.
    repeat (match goal with
            | |- context [match ?x with _ => _ end] => destruct x; try done
            end).
  - intros code body Hok Hnf Hue. unfold responseError.
    cbn [StatusCode].
    unfold http_StatusOK, http_StatusNotFound, http_StatusUnprocessableEntity.
    apply Z.eqb_neq in Hok, Hnf, Hue. by rewrite Hok, Hnf, Hue.
Qed.

Lemma responseError_by_status_witness :
  responseError (Some (mkResponse 500 "Internal Server Error"))
  = Some ErrUnexpectedStatus.
Proof.
  destruct responseError_by_status as (_ & _ & _ & _ & _ & _ & Hother).
  apply Hother; lia.
Defined.

(** ** Currencies *)

Lemma sort_Strings_Sorted l : Sorted String.le (sort_Strings l).
Proof. apply Sorted_merge_sort, _. Qed.

Lemma sort_Strings_Permutation l : sort_Strings l ≡ₚ l.
Proof. apply merge_sort_Permutation. Qed.

(** The sorted list depends on the elements only, not on their order. *)
Lemma sort_Strings_order l l' : l ≡ₚ l' -> sort_Strings l = sort_Strings l'.
Proof.
  intros Hp. apply (Sorted_unique String.le); try apply sort_Strings_Sorted.
  by rewrite !sort_Strings_Permutation.
Qed.

Lemma append_loop (cs acc : list string) :
  foldl (fun symbols c => (symbols ++ [c])%list) acc cs = (acc ++ cs)%list.
Proof.
  revert acc. induction cs as [|c cs IH]; intros acc; simpl.
  - by rewrite app_nil_r.
  - by rewrite IH, <- app_assoc.
Qed.

Lemma Currencies_String_unfold cs :
  Currencies_String cs = strings_Join (sort_Strings cs) ",".
Proof. unfold Currencies_String. by rewrite append_loop. Qed.

(** C7: [Currencies.String] is the comma-join of the codes in increasing
    bytewise order, whatever their order in the input; the sorted list is a
    permutation of the input, so a code that occurs several times is kept as
    many times; the empty sequence gives the empty string. *)
Theorem Currencies_String_sorted_join :
  (forall cs : Currencies,
      Currencies_String cs = strings_Join (sort_Strings cs) ","
      /\ Sorted String.le (sort_Strings cs)
      /\ sort_Strings cs ≡ₚ cs
      /\ length (sort_Strings cs) = length cs)
  /\ (forall cs cs' : Currencies,
        cs ≡ₚ cs' -> Currencies_String cs = Currencies_String cs')
  /\ Currencies_String [] = ""
  /\ Currencies_String [SEK; DKK] = "DKK,SEK"
  /\ Currencies_String [USD; AUD; USD] = "AUD,USD,USD".
Proof.
  split; [|split; [|repeat split]].
  - intros cs. split; [apply Currencies_String_unfold|].
    split; [apply sort_Strings_Sorted|].
    split; [apply sort_Strings_Permutation|].
    by rewrite sort_Strings_Permutation.
  - intros cs cs' Hp.
    by rewrite !Currencies_String_unfold, (sort_Strings_order cs cs').
Qed.

Lemma Currencies_String_sorted_join_witness :
  Currencies_String [USD; AUD; EUR] = Currencies_String [EUR; USD; AUD].
Proof.
  destruct Currencies_String_sorted_join as (_ & Horder & _).
  apply Horder.
  apply (Permutation_cons_app [EUR] [AUD] USD), perm_swap.
Defined.

(** ** Query builders *)

(** C8: [Base c] is the set with the one entry base=c when [c] is not
    empty, and the empty set otherwise; [Symbols cs] is the set with the one
    entry symbols=s, for s the serialization of [cs], when s is not empty,
    and the empty set otherwise, as for no currency at all. *)
Theorem Base_Symbols_single_entry :
  (forall c : Currency,
      Base c = if decide (c = "") then ∅ else {["base" := [c]]})
  /\ (forall cs : list Currency,
        Symbols cs = if decide (Currencies_String cs = "") then ∅
                     else {["symbols" := [Currencies_String cs]]})
  /\ Symbols [] = ∅
  /\ Base "" !! "base" = None
  /\ Base SEK = {["base" := ["SEK"]]}.
Proof.
  split; [|split; [|repeat split]].
  - intros c. unfold Base, Values_Set. by repeat case_decide.
  - intros cs. unfold Symbols, Values_Set. by repeat case_decide.
Qed.

(** ** The merged query *)

(** One turn of the loop of [query]. *)
Lemma query_snoc c attributes a :
  query c (attributes ++ [a]) =
    let v := query c attributes in
    let v := if decide (Values_Get a "base" ≠ "")
             then Values_Set v "base" (Values_Get a "base") else v in
    if decide (Values_Get a "symbols" ≠ "")
    then Values_Set v "symbols" (Values_Get a "symbols") else v.
Proof. unfold query. by rewrite foldl_app. Qed.

Lemma spec_lastNonEmpty_snoc key attributes a :
  spec_lastNonEmpty key (attributes ++ [a]) =
    if decide (Values_Get a key ≠ "") then Some (Values_Get a key)
    else spec_lastNonEmpty key attributes.
Proof.
  unfold spec_lastNonEmpty. rewrite fmap_app, filter_app. simpl.
  rewrite filter_cons, filter_nil.
  case_decide; [by rewrite last_snoc|by rewrite app_nil_r].
Qed.

Lemma query_lookup_base c attributes :
  query c attributes !! "base"
  = (fun b => [b]) <$> spec_lastNonEmpty "base" attributes.
Proof.
  induction attributes as [|a attributes IH] using rev_ind; [done|].
  rewrite query_snoc, spec_lastNonEmpty_snoc. cbv zeta. unfold Values_Set.
  repeat case_decide; simplify_map_eq; done.
Qed.

Lemma query_lookup_symbols c attributes :
  query c attributes !! "symbols"
  = (fun b => [b]) <$> spec_lastNonEmpty "symbols" attributes.
Proof.
  induction attributes as [|a attributes IH] using rev_ind; [done|].
  rewrite query_snoc, spec_lastNonEmpty_snoc. cbv zeta. unfold Values_Set.
  repeat case_decide; simplify_map_eq; done.
Qed.

Lemma query_lookup_other c attributes key :
  key ≠ "base" -> key ≠ "symbols" -> query c attributes !! key = None.
Proof.
  intros Hb Hs.
  induction attributes as [|a attributes IH] using rev_ind; [done|].
  rewrite query_snoc. cbv zeta. unfold Values_Set.
  repeat case_decide; simplify_map_eq; done.
Qed.

Lemma spec_lastNonEmpty_Some key attributes s :
  spec_lastNonEmpty key attributes = Some s ->
  s ≠ "" /\ exists a, a ∈ attributes /\ Values_Get a key = s.
Proof.
  unfold spec_lastNonEmpty. intros Hl.
  apply last_Some_elem_of in Hl.
  apply list_elem_of_filter in Hl as [Hne Hin].
  apply list_elem_of_fmap in Hin as (a & -> & Hin). eauto.
Qed.

(** C10: in the merge of [query], a set whose value of base (or of
    symbols) is absent or empty leaves the value merged so far in place:
    the merged base (symbols) is the last value that is not empty among the
    sets, and the key is absent when there is none. *)
Theorem query_keeps_last_non_empty :
  forall (c : Client) (attributes : list Values),
    query c attributes !! "base"
    = (fun b => [b]) <$> spec_lastNonEmpty "base" attributes
    /\ query c attributes !! "symbols"
       = (fun s => [s]) <$> spec_lastNonEmpty "symbols" attributes
    /\ (forall a : Values,
          Values_Get a "base" = "" ->
          query c (attributes ++ [a]) !! "base"
          = query c attributes !! "base")
    /\ (forall a : Values,
          Values_Get a "symbols" = "" ->
          query c (attributes ++ [a]) !! "symbols"
          = query c attributes !! "symbols").
Proof.
  intros c attributes.
  split; [apply query_lookup_base|].
  split; [apply query_lookup_symbols|].
  split; intros a Ha.
  - rewrite !query_lookup_base, spec_lastNonEmpty_snoc.
    by case_decide.
  - rewrite !query_lookup_symbols, spec_lastNonEmpty_snoc.
    by case_decide.
Qed.

Lemma query_keeps_last_non_empty_witness :
  query Test.client ([Base SEK; Symbols [USD]] ++ [Base ""]) !! "base"
  = query Test.client [Base SEK; Symbols [USD]] !! "base".
Proof.
  destruct (query_keeps_last_non_empty Test.client [Base SEK; Symbols [USD]])
    as (_ & _ & Hbase & _).
  apply Hbase. reflexivity.
Defined.

(** C3: the query that the client sends holds, under base and under
    symbols, one value that is the non-empty value of that key in one of
    the partial sets; no other key of the sets gets through; and
    access_key holds the configured key exactly when that key is not
    empty, whatever the query held before. *)
Theorem merged_query_whitelist :
  forall (c : Client) (attributes : list Values),
    let q := withAccessKey c (query c attributes) in
    (forall key vs, q !! key = Some vs ->
        (key = "base"
         /\ exists a, a ∈ attributes /\ Values_Get a "base" ≠ ""
                      /\ vs = [Values_Get a "base"])
        \/ (key = "symbols"
            /\ exists a, a ∈ attributes /\ Values_Get a "symbols" ≠ ""
                         /\ vs = [Values_Get a "symbols"])
        \/ (key = "access_key" /\ accessKey c ≠ "" /\ vs = [accessKey c]))
    /\ (forall q0 : Values,
          accessKey c ≠ "" ->
          withAccessKey c q0 !! "access_key" = Some [accessKey c])
    /\ (accessKey c = "" -> q !! "access_key" = None).
Proof.
  intros c attributes q. subst q. unfold withAccessKey, Values_Set.
  split; [|split].
  - intros key vs Hq.
    destruct (decide (key = "access_key")) as [->|Hak].
    { case_decide; simplify_map_eq; [by right; right|].
      by rewrite query_lookup_other in Hq. }
    assert (query c attributes !! key = Some vs) as Hq'.
    { case_decide; simplify_map_eq; done. }
    destruct (decide (key = "base")) as [->|Hb].
    { left. split; [done|]. rewrite query_lookup_base in Hq'.
      destruct (spec_lastNonEmpty "base" attributes) as [s|] eqn:Hs; [|done].
      apply spec_lastNonEmpty_Some in Hs as (Hne & a & Hin & <-).
      simplify_eq/=. eauto. }
    destruct (decide (key = "symbols")) as [->|Hs].
    { right; left. split; [done|]. rewrite query_lookup_symbols in Hq'.
      destruct (spec_lastNonEmpty "symbols" attributes) as [s|] eqn:Hs;
        [|done].
      apply spec_lastNonEmpty_Some in Hs as (Hne & a & Hin & <-).
      simplify_eq/=. eauto. }
    by rewrite query_lookup_other in Hq'.
  - intros q0 Hne. case_decide; [|done]. by simplify_map_eq.
  - intros He. case_decide; [done|]. by rewrite query_lookup_other.
Qed.

Lemma merged_query_whitelist_witness :
  let c := AccessKey "secret" Test.client in
  withAccessKey c (Values_Set (query c [Base SEK]) "access_key" "other")
    !! "access_key"
  = Some ["secret"].
Proof.
  intros c.
  destruct (merged_query_whitelist c [Base SEK]) as (_ & Hkey & _).
  apply Hkey. discriminate.
Defined.

(** ** Client options *)

(** C9: the option [BaseURL rawurl] sets the base URL to the parsed
    [rawurl] when it parses, and leaves the whole client as it was when it
    does not; it has no error to give, and the HTTP client, the access key
    and the user agent stay as they were in both cases. *)
Theorem BaseURL_frame `{GoLib} :
  forall (rawurl : string) (c : Client),
    httpClient (BaseURL rawurl c) = httpClient c
    /\ accessKey (BaseURL rawurl c) = accessKey c
    /\ userAgent (BaseURL rawurl c) = userAgent c
    /\ match url_Parse rawurl with
       | inl u => baseURL (BaseURL rawurl c) = u
       | inr _ => baseURL (BaseURL rawurl c) = baseURL c
                  /\ BaseURL rawurl c = c
       end.
Proof.
  intros rawurl c. unfold BaseURL.
  destruct (url_Parse rawurl) as [u|err]; simpl; auto.
Qed.

(** ** The calls *)

Lemma string_app_cons x (a b : string) :
  String x a +:+ b = String x (a +:+ b).
Proof. reflexivity. Qed.

Lemma string_app_nil_r (a : string) : a +:+ "" = a.
Proof.
  induction a as [|x a IH]; [done|]. by rewrite string_app_cons, IH.
Qed.

Lemma string_app_assoc (a b c : string) : (a +:+ b) +:+ c = a +:+ b +:+ c.
Proof.
  induction a as [|x a IH]; [done|]. by rewrite !string_app_cons, IH.
Qed.

Lemma run_get `{GoLib} c k :
  run c k = get c (callPath c k) (query c (callAttributes k)).
Proof. by destruct k. Qed.

(** The URL of the request: the path of the base URL, the path of the
    call and the encoded query, parsed, resolved against the base URL and
    parsed again by [http.NewRequest]. *)
Lemma request_URL `{GoLib} c path q req :
  request c path q = inl req ->
  exists rel req0,
    url_Parse
      (Path (baseURL c) +:+ path +:+
         (if decide (0 < size (withAccessKey c q))%nat
          then "?" +:+ Values_Encode (withAccessKey c q) else ""))
    = inl rel
    /\ http_NewRequest "GET"
         (url_String (url_ResolveReference (baseURL c) rel)) = inl req0
    /\ Req_URL req = Req_URL req0.
Proof.
  unfold request. cbv zeta.
  case_decide.
  - destruct (url_Parse _) as [rel|err] eqn:Hrel; [|done].
    destruct (http_NewRequest _ _) as [req0|err] eqn:Hreq; [|done].
    intros [= <-]. exists rel, req0. split; [|done].
    by rewrite <- Hrel, string_app_assoc.
  - destruct (url_Parse _) as [rel|err] eqn:Hrel; [|done].
    destruct (http_NewRequest _ _) as [req0|err] eqn:Hreq; [|done].
    intros [= <-]. exists rel, req0. split; [|done].
    by rewrite string_app_nil_r.
Qed.

(** C4: after a call of [Latest] or [At] that succeeds, the links of the
    response are the two entries base, the configured base URL, and self,
    the URL of the request, resolved against the base URL and with its
    query, whatever links the decoded body held; the other fields are those
    of the decoded body. *)
Theorem call_sets_Links `{GoLib} :
  forall (c : Client) (k : call) (r : Response) (err : option error)
         (evs : list event),
    run c k = (Return (Some r) err, evs) ->
    exists req resp r0,
      request c (callPath c k) (query c (callAttributes k)) = inl req
      /\ Do (httpClient c) req = inl resp
      /\ json_Decode (Body resp) = (r0, None)
      /\ Resp_Links r = {[ "base" := url_String (baseURL c);
                            "self" := url_String (Req_URL req) ]}
      /\ size (Resp_Links r) = 2%nat
      /\ Resp_Base r = Resp_Base r0
      /\ Resp_Date r = Resp_Date r0
      /\ Resp_Rates r = Resp_Rates r0
      /\ exists rel req0,
          let q := withAccessKey c (query c (callAttributes k)) in
          url_Parse
            (Path (baseURL c) +:+ callPath c k +:+
               (if decide (0 < size q)%nat
                then "?" +:+ Values_Encode q else ""))
          = inl rel
          /\ http_NewRequest "GET"
               (url_String (url_ResolveReference (baseURL c) rel)) = inl req0
          /\ Req_URL req = Req_URL req0.
Proof.
  intros c k r err evs. rewrite run_get. unfold get.
  destruct (request c _ _) as [req|e] eqn:Hreq; [|done].
  unfold do.
  destruct (Do (httpClient c) req) as [resp|e] eqn:Hdo; [|done].
  destruct (responseError (Some resp)) as [e|] eqn:Hst; [done|].
  destruct (json_Decode (Body resp)) as [r0 [e|]] eqn:Hdec; [done|].
  intros [= <- <- <-]. exists req, resp, r0. simpl.
  repeat (split; [done|]). by apply request_URL.
Qed.

Lemma call_sets_Links_witness :
  let c := Test.client in
  let k := CallLatest [Base SEK; Symbols [USD; GBP]] in
  let r := Test.resultOf (run c k) in
  run c k = (Return (Some r) None, (run c k).2)
  /\ Resp_Links r
     = {[ "base" := "http://127.0.0.1:8080";
          "self" := "http://127.0.0.1:8080/latest?base=SEK&symbols=GBP%2CUSD" ]}.
Proof.
  intros c k r.
  assert (run c k = (Return (Some r) None, (run c k).2)) as Hrun
    by (vm_compute; reflexivity).
  split; [exact Hrun|].
  destruct (call_sets_Links c k r None _ Hrun)
    as (req & resp & r0 & Hreq & _ & _ & HL & _).
  rewrite HL. vm_compute in Hreq. injection Hreq as <-.
  vm_compute. reflexivity.
Defined.

(** C5: a call of [Latest] or [At] returns either a response and no
    error, the response being the one decoded from the whole body, or no
    response and an error; it never returns both or neither, and it does
    not panic. When the status of the response is an error, that error is
    returned and the body is not decoded: the call sends the request,
    discards and closes the body, and does nothing else. *)
Theorem call_returns_response_or_error `{GoLib} :
  forall (c : Client) (k : call),
    ((exists r req resp r0,
         run c k = (Return (Some r) None,
                    [EvSend req; EvDecode (Body resp); EvDiscard; EvClose])
         /\ Do (httpClient c) req = inl resp
         /\ json_Decode (Body resp) = (r0, None)
         /\ Resp_Base r = Resp_Base r0
         /\ Resp_Date r = Resp_Date r0
         /\ Resp_Rates r = Resp_Rates r0)
     \/ (exists e evs, run c k = (Return None (Some e), evs)))
    /\ (forall req resp e,
          request c (callPath c k) (query c (callAttributes k)) = inl req ->
          Do (httpClient c) req = inl resp ->
          responseError (Some resp) = Some e ->
          run c k = (Return None (Some e), [EvSend req; EvDiscard; EvClose])).
Proof.
  intros c k. rewrite run_get. unfold get, do. split.
  - destruct (request c _ _) as [req|e]; [|right; eauto].
    destruct (Do (httpClient c) req) as [resp|e] eqn:Hdo; [|right; eauto].
    destruct (responseError (Some resp)) as [e|]; [right; eauto|].
    destruct (json_Decode (Body resp)) as [r0 [e|]] eqn:Hdec; [right; eauto|].
    left. eexists _, req, resp, r0. by rewrite Hdo.
  - intros req resp e -> -> ->. done.
Qed.

Lemma call_returns_response_or_error_witness :
  exists req,
    run Test.client (CallAt (time_Date 1999 12 31 0 0 0 0 time_UTC) [])
    = (Return None (Some ErrUnprocessableEntity),
       [EvSend req; EvDiscard; EvClose]).
Proof.
  eexists.
  eapply (proj2 (call_returns_response_or_error Test.client
                   (CallAt (time_Date 1999 12 31 0 0 0 0 time_UTC) [])));
    vm_compute; reflexivity.
Defined.

(** ** Calendar arithmetic *)

Lemma forallFrom_spec (P : Z -> bool) (z0 : Z) (n : nat) :
  forallFrom P z0 n = true ->
  forall z, z0 <= z < z0 + Z.of_nat n -> P z = true.
Proof.
  revert z0. induction n as [|n IH]; intros z0 Hall z Hz; [lia|].
  simpl in Hall. apply andb_prop in Hall as [Hz0 Hall].
  destruct (decide (z = z0)) as [->|Hne]; [done|].
  apply (IH (z0 + 1)); [done|lia].
Qed.

Lemma Z_range_forallb (P : Z -> bool) (n : Z) :
  forallFrom P 0 (Z.to_nat n) = true ->
  forall z, 0 <= z < n -> P z = true.
Proof.
  intros Hall z Hz. apply (forallFrom_spec P 0 (Z.to_nat n)); [done|lia].
Qed.

Lemma appendInt_4 y : 0 <= y <= 9999 -> appendInt y 4 = fourDigits y.
Proof.
  intros Hy.
  apply String.eqb_eq.
  apply (Z_range_forallb
           (fun y => String.eqb (appendInt y 4) (fourDigits y)) 10000);
    [vm_compute; reflexivity|lia].
Qed.

Lemma appendInt_2 m : 0 <= m <= 99 -> appendInt m 2 = twoDigits m.
Proof.
  intros Hm.
  apply String.eqb_eq.
  apply (Z_range_forallb
           (fun m => String.eqb (appendInt m 2) (twoDigits m)) 100);
    [vm_compute; reflexivity|lia].
Qed.

Lemma spec_yyyy_mm_dd_digits y m d :
  spec_yyyy_mm_dd y m d
  = fourDigits y +:+ "-" +:+ twoDigits m +:+ "-" +:+ twoDigits d.
Proof. reflexivity. Qed.

Ltac zdiv := Z.div_mod_to_equations; lia.

Lemma daysIn_le_31 m y : daysIn m y <= 31.
Proof. unfold daysIn. repeat case_match; lia. Qed.

Lemma isLeap_true y :
  isLeap y = true <-> y mod 4 = 0 /\ (y mod 100 <> 0 \/ y mod 400 = 0).
Proof.
  unfold isLeap.
  rewrite andb_true_iff, orb_true_iff, negb_true_iff, !Z.eqb_eq, Z.eqb_neq.
  done.
Qed.

Lemma civilDate_range days :
  let '(y, m, d) := civilDate days in 1 <= m <= 12 /\ 1 <= d <= 31.
Proof.
  unfold civilDate. cbv zeta.
  set (z := days + 719468).
  set (doe := z - z / 146097 * 146097).
  assert (0 <= doe < 146097) as Hdoe by (subst doe; zdiv).
  clearbody doe.
  set (yoe := (doe - doe / 1460 + doe / 36524 - doe / 146096) / 365).
  set (doy := doe - (365 * yoe + yoe / 4 - yoe / 100)).
  assert (0 <= doy <= 365) as Hdoy by (subst doy yoe; zdiv).
  clearbody doy.
  set (mp := (5 * doy + 2) / 153).
  assert (0 <= mp <= 11) as Hmp by (subst mp; zdiv).
  assert (1 <= doy - (153 * mp + 2) / 5 + 1 <= 31) as Hd by (subst mp; zdiv).
  destruct (mp <? 10) eqn:Hlt; lia.
Qed.

Lemma civil_roundtrip y m d :
  1 <= m <= 12 -> 1 <= d <= daysIn m y ->
  civilDate (daysSinceEpoch y m d) = (y, m, d).
Proof.
  intros Hm Hd.
  unfold daysSinceEpoch, civilDate. cbv zeta.
  set (y' := if m <=? 2 then y - 1 else y).
  set (era := y' / 400). set (yoe := y' - era * 400).
  set (mp := (m + 9) mod 12).
  set (doy := (153 * mp + 2) / 5 + d - 1).
  set (doe := yoe * 365 + yoe / 4 - yoe / 100 + doy).
  assert (0 <= yoe <= 399) as Hyoe by (subst yoe era; zdiv).
  assert (0 <= mp <= 11 /\ m = (if mp <? 10 then mp + 3 else mp - 9)
          /\ y = (if m <=? 2 then y' + 1 else y')) as (Hmp & Hmmp & Hy).
  { subst mp y'. destruct (m <=? 2) eqn:Hm2;
      destruct ((m + 9) mod 12 <? 10) eqn:Hlt; zdiv. }
  assert (d = doy - (153 * mp + 2) / 5 + 1) as Hdd by (subst doy; lia).
  assert (0 <= doy
          /\ doy < 365 + (yoe + 1) / 4 - (yoe + 1) / 100 + (yoe + 1) / 400
                   - (yoe / 4 - yoe / 100)
          /\ (5 * doy + 2) / 153 = mp) as (Hdoy0 & Hdoy & Hmprec).
  { unfold daysIn in Hd.
    destruct (isLeap y) eqn:Hleap.
    - apply isLeap_true in Hleap.
      repeat (destruct (_ =? _)%Z eqn:? in Hd; simpl in Hd);
      repeat (destruct (_ <=? _)%Z eqn:? in Hd; simpl in Hd);
        subst doy mp yoe era y'; destruct (m <=? 2) eqn:?; zdiv.
    - assert (~ (y mod 4 = 0 /\ (y mod 100 <> 0 \/ y mod 400 = 0))) as Hnl
        by (rewrite <- isLeap_true; congruence).
      repeat (destruct (_ =? _)%Z eqn:? in Hd; simpl in Hd);
      repeat (destruct (_ <=? _)%Z eqn:? in Hd; simpl in Hd);
        subst doy mp yoe era y'; destruct (m <=? 2) eqn:?; zdiv. }
  assert (y' = yoe + era * 400) as Hy' by (subst yoe; lia).
  clearbody doy mp yoe era y'.
  assert ((era * 146097 + doe - 719468 + 719468) / 146097 = era) as ->
    by (subst doe; zdiv).
  replace (era * 146097 + doe - 719468 + 719468 - era * 146097) with doe
    by lia.
  assert ((doe - doe / 1460 + doe / 36524 - doe / 146096) / 365 = yoe) as ->
    by (subst doe; zdiv).
  replace (doe - (365 * yoe + yoe / 4 - yoe / 100)) with doy
    by (subst doe; lia).
  rewrite Hmprec, <- Hdd, <- Hmmp, <- Hy'.
  by destruct (m <=? 2); subst y.
Qed.

Lemma Time_abs_time_Date y m d hh mm ss ns off :
  Time_abs (time_Date y m d hh mm ss ns (time_FixedZone off))
  = daysSinceEpoch y m d * secondsPerDay + hh * 3600 + mm * 60 + ss.
Proof.
  unfold time_Date, Time_abs, time_FixedZone. cbn [lookup].
  destruct (off =? 0) eqn:Hoff; cbn [unixSec loc lookup fst].
  - apply Z.eqb_eq in Hoff. lia.
  - destruct (_ || _); cbn [fst]; lia.
Qed.

(** A time built from the fields of a wall clock in a fixed zone shows
    those fields again, whatever the offset of the zone. *)
Lemma Time_Date_time_Date y m d hh mm ss ns off :
  1 <= m <= 12 -> 1 <= d <= daysIn m y ->
  0 <= hh < 24 -> 0 <= mm < 60 -> 0 <= ss < 60 ->
  let t := time_Date y m d hh mm ss ns (time_FixedZone off) in
  Time_Date t = (y, m, d) /\ Time_Clock t = (hh, mm, ss).
Proof.
  intros Hm Hd Hhh Hmm Hss t. subst t.
  unfold Time_Date, Time_Clock. rewrite Time_abs_time_Date.
  unfold secondsPerDay. set (days := daysSinceEpoch y m d).
  replace ((days * 86400 + hh * 3600 + mm * 60 + ss) / 86400)
    with days by zdiv.
  replace ((days * 86400 + hh * 3600 + mm * 60 + ss) mod 86400)
    with (hh * 3600 + mm * 60 + ss) by zdiv.
  split; [by apply civil_roundtrip|].
  cbv zeta. f_equal; [f_equal|]; zdiv.
Qed.

Lemma isDigit_digitVal c :
  isDigit c = true -> digitChar (digitVal c) = c /\ 0 <= digitVal c <= 9.
Proof.
  destruct c as [[] [] [] [] [] [] [] []]; try discriminate;
    intros _; vm_compute; intuition discriminate.
Qed.

Lemma digitChar_isDigit k :
  0 <= k <= 9 -> isDigit (digitChar k) = true /\ digitVal (digitChar k) = k.
Proof.
  intros Hk.
  assert (k = 0 \/ k = 1 \/ k = 2 \/ k = 3 \/ k = 4 \/ k = 5 \/ k = 6
          \/ k = 7 \/ k = 8 \/ k = 9) as Hcases by lia.
  repeat (destruct Hcases as [->|Hcases]; [by vm_compute|]).
  subst. by vm_compute.
Qed.

Lemma getyear4_Some s y rest :
  getyear4 s = Some (y, rest) <->
  s = fourDigits y +:+ rest /\ 0 <= y <= 9999.
Proof.
  split.
  - destruct s as [|a [|b [|c [|d s]]]]; try done. unfold getyear4.
    destruct (isDigit a) eqn:Ha; [|done].
    destruct (isDigit b) eqn:Hb; [|done].
    destruct (isDigit c) eqn:Hc; [|done].
    destruct (isDigit d) eqn:Hd; [|done].
    cbn [andb]. intros [= <- <-].
    apply isDigit_digitVal in Ha as [Ha ?], Hb as [Hb ?],
        Hc as [Hc ?], Hd as [Hd ?].
    split; [|lia]. unfold fourDigits. rewrite !string_app_cons.
    rewrite <- Ha at 1. rewrite <- Hb at 1.
    rewrite <- Hc at 1. rewrite <- Hd at 1.
    repeat f_equal; zdiv.
  - intros [-> Hy]. unfold fourDigits. rewrite !string_app_cons.
    unfold getyear4.
    destruct (digitChar_isDigit (y / 1000) ltac:(zdiv)) as [-> ->].
    destruct (digitChar_isDigit (y / 100 mod 10) ltac:(zdiv)) as [-> ->].
    destruct (digitChar_isDigit (y / 10 mod 10) ltac:(zdiv)) as [-> ->].
    destruct (digitChar_isDigit (y mod 10) ltac:(zdiv)) as [-> ->].
    cbn [andb]. do 2 f_equal. zdiv.
Qed.

Lemma getnum2_Some s n rest :
  getnum2 s = Some (n, rest) <-> s = twoDigits n +:+ rest /\ 0 <= n <= 99.
Proof.
  split.
  - destruct s as [|a [|b s]]; try done. unfold getnum2.
    destruct (isDigit a) eqn:Ha; [|done].
    destruct (isDigit b) eqn:Hb; [|done].
    cbn [andb]. intros [= <- <-].
    apply isDigit_digitVal in Ha as [Ha ?], Hb as [Hb ?].
    split; [|lia]. unfold twoDigits. rewrite !string_app_cons.
    rewrite <- Ha at 1. rewrite <- Hb at 1.
    repeat f_equal; zdiv.
  - intros [-> Hn]. unfold twoDigits. rewrite !string_app_cons.
    unfold getnum2.
    destruct (digitChar_isDigit (n / 10) ltac:(zdiv)) as [-> ->].
    destruct (digitChar_isDigit (n mod 10) ltac:(zdiv)) as [-> ->].
    cbn [andb]. do 2 f_equal. zdiv.
Qed.

Lemma skipHyphen_Some s rest :
  skipHyphen s = Some rest <-> s = String "-" rest.
Proof.
  split.
  - destruct s as [|c s]; [done|]. unfold skipHyphen.
    destruct (Ascii.eqb_spec c "-") as [->|]; [|done]. by intros [= ->].
  - intros ->. done.
Qed.

Lemma parseFields_Some s y m d :
  parseFields s = Some (y, m, d) <->
  s = spec_yyyy_mm_dd y m d /\ spec_validDate y m d.
Proof.
  rewrite spec_yyyy_mm_dd_digits. unfold spec_validDate. split.
  - unfold parseFields.
    destruct (getyear4 s) as [[y0 v1]|] eqn:H1; [|done].
    destruct (skipHyphen v1) as [v2|] eqn:H2; [|done].
    destruct (getnum2 v2) as [[m0 v3]|] eqn:H3; [|done].
    destruct (skipHyphen v3) as [v4|] eqn:H4; [|done].
    destruct (getnum2 v4) as [[d0 v5]|] eqn:H5; [|done].
    destruct (String.eqb_spec v5 "") as [->|]; [|done]. cbn [negb].
    destruct ((m0 <=? 0) || (12 <? m0)) eqn:Hm; [done|].
    destruct ((d0 <? 1) || (daysIn m0 y0 <? d0)) eqn:Hd; [done|].
    intros [= -> -> ->].
    apply getyear4_Some in H1 as [-> Hy].
    apply skipHyphen_Some in H2 as ->.
    apply getnum2_Some in H3 as [-> Hm2].
    apply skipHyphen_Some in H4 as ->.
    apply getnum2_Some in H5 as [-> Hd2].
    rewrite string_app_nil_r. split; [done|].
    apply orb_false_iff in Hm as [Hm1 Hm12], Hd as [Hd1 Hdn]. lia.
  - intros [-> (Hy & Hm & Hd)]. unfold parseFields.
    pose proof (daysIn_le_31 m y) as H31.
    assert (0 <= m <= 99) as Hm2 by lia.
    assert (0 <= d <= 99) as Hd2 by lia.
    rewrite (proj2 (getyear4_Some _ y _) (conj eq_refl Hy)).
    change ("-" +:+ ?x) with (String "-" x). rewrite (proj2 (skipHyphen_Some _ _) eq_refl).
    rewrite (proj2 (getnum2_Some _ m _) (conj eq_refl Hm2)).
    change ("-" +:+ ?x) with (String "-" x).
    rewrite (proj2 (skipHyphen_Some _ _) eq_refl).
    rewrite <- (string_app_nil_r (twoDigits d)).
    rewrite (proj2 (getnum2_Some _ d _) (conj eq_refl Hd2)).
    cbn [String.eqb negb].
    destruct ((m <=? 0) || (12 <? m)) eqn:Hm'; [lia|].
    destruct ((d <? 1) || (daysIn m y <? d)) eqn:Hd'; [lia|]. done.
Qed.

(** ** Dates *)

(** C6: [Date.UnmarshalJSON] succeeds exactly when its input is a JSON
    string literal whose content names a calendar date in the form
    YYYY-MM-DD; the date it then leaves is that calendar date at 00:00:00
    in UTC. On every other input (no string, or a string that is no such
    date) it returns an error and leaves the date it was given as it was,
    the zero date when it was the zero date. *)
Theorem Date_UnmarshalJSON_date :
  forall (d : Date) (b : string),
    match Date_UnmarshalJSON d b with
    | (d', None) =>
        exists y m dd,
          json_scan b = JSONString (spec_yyyy_mm_dd y m dd)
          /\ spec_validDate y m dd
          /\ d' = mkDate (time_Date y m dd 0 0 0 0 time_UTC)
          /\ Time_Date (Date_Time d') = (y, m, dd)
          /\ Time_Clock (Date_Time d') = (0, 0, 0)
          /\ loc (Date_Time d') = time_UTC
    | (d', Some _) =>
        d' = d
        /\ ~ (exists y m dd,
                 json_scan b = JSONString (spec_yyyy_mm_dd y m dd)
                 /\ spec_validDate y m dd)
    end.
Proof.
  intros d b.
  unfold Date_UnmarshalJSON, json_Unmarshal_string,
    time_ParseInLocation_20060102.
  destruct (json_scan b) as [s| |] eqn:Hscan.
  - destruct (parseFields s) as [[[y m] dd]|] eqn:Hparse.
    + apply parseFields_Some in Hparse as [-> Hvalid].
      exists y, m, dd. split; [done|]. split; [done|]. split; [done|].
      destruct Hvalid as (Hy & Hm & Hd). cbn [Date_Time].
      destruct (Time_Date_time_Date y m dd 0 0 0 0 0 Hm Hd) as [HD HC];
        [lia..|].
      done.
    + split; [done|]. intros (y & m & dd & [= ->] & Hvalid).
      by rewrite (proj2 (parseFields_Some _ y m dd) (conj eq_refl Hvalid))
        in Hparse.
  - split; [done|]. by intros (y & m & dd & [=] & _).
  - split; [done|]. by intros (y & m & dd & [=] & _).
Qed.

Lemma civilDate_Time_Date t :
  Time_Date t = civilDate (Time_abs t / secondsPerDay).
Proof. reflexivity. Qed.

Lemma Time_Format_valid t y m d :
  Time_Date t = (y, m, d) -> 0 <= y <= 9999 ->
  Time_Format_20060102 t = spec_yyyy_mm_dd y m d.
Proof.
  intros HD Hy. unfold Time_Format_20060102. rewrite HD.
  pose proof (civilDate_range (Time_abs t / secondsPerDay)) as Hr.
  rewrite <- civilDate_Time_Date, HD in Hr.
  rewrite appendInt_4, !appendInt_2 by lia. done.
Qed.

(** ** The path of a historical request *)

(** C2, as the code has it: for every time [t], [At] asks for the path
    made of a slash and the calendar date, in the form YYYY-MM-DD, that
    [t] shows in its own location (years 0 to 9999), the time of day being
    dropped; when the offset of that location from UTC at [t] is zero, this
    is the date of [t] in UTC. *)
Theorem At_path_is_local_date `{GoLib} :
  forall (c : Client) (t : time_Time) (attributes : list Values) (y m d : Z),
    Time_Date t = (y, m, d) ->
    0 <= y <= 9999 ->
    At c t attributes
    = get c ("/" +:+ spec_yyyy_mm_dd y m d) (query c attributes)
    /\ ((lookup (loc t) (unixSec t)).1.1 = 0 ->
        spec_utcDate t = spec_yyyy_mm_dd y m d).
Proof.
  intros c t attributes y m d HD Hy. split.
  - unfold At, date. by rewrite (Time_Format_valid t y m d).
  - intros Hoff. unfold spec_utcDate. apply Time_Format_valid; [|done].
    rewrite <- HD. unfold Time_Date, Time_abs, Time_UTC, Time_In.
    cbn [unixSec loc lookup time_UTC time_FixedZone fst]. by rewrite Hoff.
Qed.

Lemma At_path_is_local_date_witness :
  Time_Date lateEvening = (2012, 3, 28)
  /\ At Test.client lateEvening []
     = get Test.client ("/" +:+ spec_yyyy_mm_dd 2012 3 28)
         (query Test.client []).
Proof.
  split; [vm_compute; reflexivity|].
  apply (At_path_is_local_date Test.client lateEvening [] 2012 3 28);
    [vm_compute; reflexivity|lia].
Defined.

(** C2, as the specification has it, fails: at 23:30 on 2012-03-28 on a
    wall clock two hours behind UTC the date in UTC is 2012-03-29, and
    [At] asks for 2012-03-28; the test server answers the one and has
    nothing under the other. *)
Lemma At_path_not_UTC_date :
  spec_utcDate lateEvening = "2012-03-29"
  /\ date Test.client lateEvening = "2012-03-28"
  /\ (At Test.client lateEvening []).1
     <> (get Test.client ("/" +:+ spec_utcDate lateEvening)
           (query Test.client [])).1
  /\ ~ (forall (c : Client) (t : time_Time) (attributes : list Values),
          At c t attributes
          = get c ("/" +:+ spec_utcDate t) (query c attributes)).
Proof.
  assert ((At Test.client lateEvening []).1
          <> (get Test.client ("/" +:+ spec_utcDate lateEvening)
                (query Test.client [])).1) as Hne.
  { intros Heq. vm_compute in Heq. discriminate Heq. }
  split; [by vm_compute|]. split; [by vm_compute|]. split; [done|].
  intros Hall. apply Hne. by rewrite Hall.
Qed.

(** ** The tests of the package, on the model *)

(** TestDateUnmarshalJSON. *)
Example test_Date_UnmarshalJSON :
  Date_UnmarshalJSON Date_zero (Test.quoted "2016-02-12")
  = (mkDate (time_Date 2016 2 12 0 0 0 0 time_UTC), None)
  /\ (Date_UnmarshalJSON Date_zero "false").1 = Date_zero
  /\ (Date_UnmarshalJSON Date_zero (Test.quoted "not-a-date")).1 = Date_zero
  /\ (Date_UnmarshalJSON Date_zero (Test.quoted "2016-02-30")).1 = Date_zero
  /\ (Date_UnmarshalJSON Date_zero "null").1 = Date_zero
  /\ (Date_UnmarshalJSON Date_zero "null").2 <> None.
Proof. repeat split; vm_compute; done. Qed.

(** TestBase and TestSymbols. *)
Example test_Base_Symbols :
  Test.encode (Base "") = ""
  /\ Test.encode (Base SEK) = "base=SEK"
  /\ Test.encode (Symbols []) = ""
  /\ Test.encode (Symbols [SEK; DKK]) = "symbols=DKK%2CSEK"
  /\ Test.encode (Symbols [EUR; USD; GBP]) = "symbols=EUR%2CGBP%2CUSD".
Proof. repeat split; vm_compute; done. Qed.

(** TestLatest, TestAt and TestGet. *)
Example test_calls :
  Resp_Base (Test.resultOf (Latest Test.client [])) = EUR
  /\ Resp_Base
       (Test.resultOf (Latest Test.client [Base SEK; Symbols [USD; GBP]]))
     = SEK
  /\ size (Resp_Rates
             (Test.resultOf
                (Latest Test.client [Base SEK; Symbols [USD; GBP]])))
     = 2%nat
  /\ (At Test.client (time_Date 1999 12 31 0 0 0 0 time_UTC) []).1
     = Return None (Some ErrUnprocessableEntity)
  /\ (At Test.client (time_Date 2000 1 1 0 0 0 0 time_UTC) []).1
     = Return None (Some (LibError "json" Test.notJSON))
  /\ (At Test.client (time_Date 2001 1 1 0 0 0 0 time_UTC) []).1
     = Return None (Some ErrNotFound)
  /\ get Test.client ":/" ∅
     = (Return None (Some (LibError "url" "missing protocol scheme")), []).
Proof. repeat split; vm_compute; done. Qed.

(** [appendInt] pads to the width and never cuts: a year beyond 9999 has
    five digits, and a negative year its sign. *)
Example test_appendInt :
  appendInt 2012 4 = "2012" /\ appendInt 7 2 = "07"
  /\ appendInt 12345 4 = "12345" /\ appendInt (-5) 4 = "-0005".
Proof. repeat split; vm_compute; reflexivity. Qed.

(** * Further properties *)

(** ** More on the options *)


Lemma NewClient_snoc `{GoLib} options f :
  NewClient (options ++ [f]) = f (NewClient options).
Proof. unfold NewClient. by rewrite foldl_app. Qed.

(** X2: [NewClient] applies its options in order, starting from the
    defaults: one more option at the end is applied to the client built from
    the others. With [BaseURL] options alone the base URL is the last raw
    URL that parses, and the default when none does; with [AccessKey]
    options alone the access key is the last one. *)
Theorem NewClient_applies_options_in_order `{GoLib} :
  forall (options : list (Client -> Client)) (rawurls keys : list string),
    (forall f, NewClient (options ++ [f]) = f (NewClient options))
    /\ baseURL (NewClient (BaseURL <$> rawurls))
       = default (baseURL (NewClient [])) (spec_lastParsed rawurls)
    /\ accessKey (NewClient (BaseURL <$> rawurls)) = ""
    /\ accessKey (NewClient (AccessKey <$> keys)) = default "" (last keys)
    /\ baseURL (NewClient (AccessKey <$> keys)) = baseURL (NewClient []).
Proof.
  intros options rawurls keys. split; [apply NewClient_snoc|].
  split; [|split; [|split]].
  - induction rawurls as [|s rawurls IH] using rev_ind; [done|].
    rewrite fmap_app. change (BaseURL <$> [s]) with [BaseURL s].
    rewrite NewClient_snoc. unfold spec_lastParsed in *.
    rewrite omap_app. cbn [fmap list_fmap omap list_omap]. unfold BaseURL.
    destruct (url_Parse s) as [u|e]; cbn [baseURL].
    + by rewrite last_snoc.
    + by rewrite app_nil_r.
  - induction rawurls as [|s rawurls IH] using rev_ind; [done|].
    rewrite fmap_app. change (BaseURL <$> [s]) with [BaseURL s].
    rewrite NewClient_snoc. unfold BaseURL.
    by destruct (url_Parse s).
  - induction keys as [|k keys IH] using rev_ind; [done|].
    rewrite fmap_app. change (AccessKey <$> [k]) with [AccessKey k].
    rewrite NewClient_snoc. cbn [AccessKey accessKey].
    by rewrite last_snoc.
  - induction keys as [|k keys IH] using rev_ind; [done|].
    rewrite fmap_app. change (AccessKey <$> [k]) with [AccessKey k].
    by rewrite NewClient_snoc.
Qed.

(** ** More on the query *)

Lemma Values_Get_query_base c attributes :
  Values_Get (query c attributes) "base"
  = default "" (spec_lastNonEmpty "base" attributes).
Proof.
  unfold Values_Get. rewrite query_lookup_base.
  by destruct (spec_lastNonEmpty "base" attributes).
Qed.

Lemma Values_Get_query_symbols c attributes :
  Values_Get (query c attributes) "symbols"
  = default "" (spec_lastNonEmpty "symbols" attributes).
Proof.
  unfold Values_Get. rewrite query_lookup_symbols.
  by destruct (spec_lastNonEmpty "symbols" attributes).
Qed.

Lemma spec_lastNonEmpty_app key l1 l2 :
  spec_lastNonEmpty key (l1 ++ l2)
  = match spec_lastNonEmpty key l2 with
    | Some b => Some b
    | None => spec_lastNonEmpty key l1
    end.
Proof.
  unfold spec_lastNonEmpty. by rewrite fmap_app, filter_app, last_app.
Qed.

Lemma spec_lastNonEmpty_singleton key a :
  spec_lastNonEmpty key [a]
  = if decide (Values_Get a key ≠ "") then Some (Values_Get a key) else None.
Proof.
  unfold spec_lastNonEmpty. cbn [fmap list_fmap]. rewrite filter_cons.
  by case_decide.
Qed.

Lemma spec_lastNonEmpty_query c key l :
  key = "base" \/ key = "symbols" ->
  spec_lastNonEmpty key [query c l] = spec_lastNonEmpty key l.
Proof.
  intros Hkey. rewrite spec_lastNonEmpty_singleton.
  assert (Values_Get (query c l) key = default "" (spec_lastNonEmpty key l))
    as -> by (destruct Hkey as [-> | ->];
              [apply Values_Get_query_base|apply Values_Get_query_symbols]).
  destruct (spec_lastNonEmpty key l) as [b|] eqn:Hl; cbn [default].
  - apply spec_lastNonEmpty_Some in Hl as [Hne _]. by case_decide.
  - by case_decide.
Qed.

Lemma query_eq c c' l l' :
  spec_lastNonEmpty "base" l = spec_lastNonEmpty "base" l' ->
  spec_lastNonEmpty "symbols" l = spec_lastNonEmpty "symbols" l' ->
  query c l = query c' l'.
Proof.
  intros Hb Hs. apply map_eq. intros key.
  destruct (decide (key = "base")) as [->|Hnb];
    [by rewrite !query_lookup_base, Hb|].
  destruct (decide (key = "symbols")) as [->|Hns];
    [by rewrite !query_lookup_symbols, Hs|].
  by rewrite !query_lookup_other.
Qed.

(** X3: merging is compositional: the merge of two runs of sets is the
    merge of the merged first run followed by the second; merging a merged
    query changes nothing; a merged query has at most two entries, and none
    when there is no set. *)
Theorem query_merge_composes :
  forall (c : Client) (l1 l2 : list Values),
    query c (l1 ++ l2) = query c (query c l1 :: l2)
    /\ query c [query c l1] = query c l1
    /\ (size (query c l1) <= 2)%nat
    /\ query c [] = ∅.
Proof.
  intros c l1 l2. split; [|split; [|split; [|done]]].
  - apply query_eq;
      change (query c l1 :: l2) with ([query c l1] ++ l2)%list;
      rewrite !spec_lastNonEmpty_app, spec_lastNonEmpty_query; auto.
  - apply query_eq; apply spec_lastNonEmpty_query; auto.
  - rewrite <- size_dom.
    transitivity (size ({["base"; "symbols"]} : gset string)); [|done].
    apply subseteq_size. intros key Hkey. apply elem_of_dom in Hkey.
    destruct (decide (key = "base")) as [->|Hnb]; [set_solver|].
    destruct (decide (key = "symbols")) as [->|Hns]; [set_solver|].
    rewrite query_lookup_other in Hkey by done. by destruct Hkey.
Qed.

Lemma Values_Get_Base b :
  Values_Get (Base b) "base" = b /\ Values_Get (Base b) "symbols" = "".
Proof.
  unfold Base, Values_Get, Values_Set.
  destruct (decide (b = "")) as [->|Hb]; [done|].
  case_decide; [|done]. by simplify_map_eq.
Qed.

Lemma Values_Get_Symbols cs :
  Values_Get (Symbols cs) "symbols" = Currencies_String cs
  /\ Values_Get (Symbols cs) "base" = "".
Proof.
  unfold Symbols, Values_Get, Values_Set.
  destruct (decide (Currencies_String cs = "")) as [->|Hs]; [done|].
  case_decide; [|done]. by simplify_map_eq.
Qed.

(** X4: [Base] and [Symbols] are read back by [Get]: the base of [Base b]
    is [b] and the symbols of [Symbols cs] are the serialization of [cs],
    empty strings included; neither sets the key of the other. Merging one
    of them gives it back, and merging both, in either order, gives their
    union. *)
Theorem builders_round_trip :
  forall (c : Client) (b : Currency) (cs : list Currency),
    Values_Get (Base b) "base" = b
    /\ Values_Get (Symbols cs) "symbols" = Currencies_String cs
    /\ Values_Get (Base b) "symbols" = ""
    /\ Values_Get (Symbols cs) "base" = ""
    /\ query c [Base b] = Base b
    /\ query c [Symbols cs] = Symbols cs
    /\ query c [Base b; Symbols cs] = Base b ∪ Symbols cs
    /\ query c [Symbols cs; Base b] = Base b ∪ Symbols cs.
Proof.
  intros c b cs.
  destruct (Values_Get_Base b) as [Hbb Hbs].
  destruct (Values_Get_Symbols cs) as [Hss Hsb].
  repeat (split; [done|]).
  unfold query. cbn [foldl]. rewrite Hbb, Hbs, Hss, Hsb.
  unfold Base, Symbols, Values_Set.
  repeat split; repeat case_decide; try done;
    apply map_eq; intros key;
    destruct (decide (key = "base")) as [->|];
    destruct (decide (key = "symbols")) as [->|];
    rewrite ?lookup_union; simplify_map_eq; done.
Qed.

Lemma string_app_eq_nil (a b : string) : a +:+ b = "" -> a = "" /\ b = "".
Proof. destruct a as [|x a]; [done|]. by rewrite string_app_cons. Qed.

Lemma strings_Join_eq_nil l sep :
  sep ≠ "" -> strings_Join l sep = "" <-> l = [] \/ l = [""].
Proof.
  intros Hsep. split.
  - destruct l as [|x [|y rest]];
      [by left|cbn [strings_Join]; intros ->; by right|].
    cbn [strings_Join]. intros Hj.
    apply string_app_eq_nil in Hj as [_ Hj].
    by apply string_app_eq_nil in Hj as [? _].
  - by intros [-> | ->].
Qed.

Lemma Currencies_String_eq_nil cs :
  Currencies_String cs = "" <-> cs = [] \/ cs = [""].
Proof.
  rewrite Currencies_String_unfold, strings_Join_eq_nil by done.
  pose proof (sort_Strings_Permutation cs) as Hp.
  split; (intros [H|H]; [left|right]).
  - rewrite H in Hp. by apply Permutation_nil_l in Hp.
  - rewrite H in Hp. symmetry in Hp. by apply Permutation_singleton_r in Hp.
  - by subst.
  - by subst.
Qed.

(** X5: [Symbols] gives no parameter exactly for no currency and for the
    one empty currency; two empty currencies already give a comma. The
    parameter does not depend on the order of the currencies. *)
Theorem Symbols_empty_iff :
  forall cs cs' : list Currency,
    (Symbols cs = ∅ <-> cs = [] \/ cs = [""])
    /\ (Symbols cs !! "symbols" = None <-> cs = [] \/ cs = [""])
    /\ (cs ≡ₚ cs' -> Symbols cs = Symbols cs').
Proof.
  intros cs cs'. rewrite <- Currencies_String_eq_nil. unfold Symbols, Values_Set.
  split; [|split].
  - case_decide as Hs; [|done].
    split; [|done]. intros He.
    apply (f_equal (fun m : Values => m !! "symbols")) in He.
    by simplify_map_eq.
  - case_decide as Hs; [|done].
    by simplify_map_eq.
  - intros Hp.
    by rewrite !Currencies_String_unfold, (sort_Strings_order cs cs').
Qed.

(** ** More on requests *)

Lemma spec_lastNonEmpty_None key l :
  spec_lastNonEmpty key l = None
  <-> Forall (fun a => Values_Get a key = "") l.
Proof.
  induction l as [|a l IH] using rev_ind; [by split; [constructor|]|].
  rewrite spec_lastNonEmpty_snoc, Forall_app, Forall_singleton, <- IH.
  case_decide as Ha; [|tauto]. split; [done|]. by intros [_ ?].
Qed.

Lemma query_empty c attributes :
  query c attributes = ∅
  <-> Forall (fun a => Values_Get a "base" = ""
                       /\ Values_Get a "symbols" = "") attributes.
Proof.
  rewrite Forall_and, <- !spec_lastNonEmpty_None. split.
  - intros Hq.
    pose proof (query_lookup_base c attributes) as Hb.
    pose proof (query_lookup_symbols c attributes) as Hs.
    rewrite Hq, lookup_empty in Hb, Hs.
    by destruct (spec_lastNonEmpty "base" attributes),
         (spec_lastNonEmpty "symbols" attributes).
  - intros [Hb Hs]. apply map_eq. intros key. rewrite lookup_empty.
    destruct (decide (key = "base")) as [->|];
      [by rewrite query_lookup_base, Hb|].
    destruct (decide (key = "symbols")) as [->|];
      [by rewrite query_lookup_symbols, Hs|].
    by apply query_lookup_other.
Qed.

(** X6: the merged query is empty exactly when the client has no access
    key and no set has a base or symbols that is not empty; the URL that
    [request] parses is the path of the base URL and the path of the call,
    followed by a question mark and the encoded query exactly when the
    query is not empty. *)
Theorem request_query_string `{GoLib} :
  forall (c : Client) (path : string) (attributes : list Values),
    let q := withAccessKey c (query c attributes) in
    (q = ∅ <->
       accessKey c = ""
       /\ Forall (fun a => Values_Get a "base" = ""
                           /\ Values_Get a "symbols" = "") attributes)
    /\ (forall req,
          request c path (query c attributes) = inl req ->
          exists rel req0,
            url_Parse
              (Path (baseURL c) +:+ path +:+
                 (if decide (q = ∅) then "" else "?" +:+ Values_Encode q))
            = inl rel
            /\ http_NewRequest "GET"
                 (url_String (url_ResolveReference (baseURL c) rel))
               = inl req0
            /\ Req_URL req = Req_URL req0).
Proof.
  intros c path attributes q. split.
  - subst q. unfold withAccessKey, Values_Set. rewrite <- (query_empty c).
    case_decide as Hk.
    + split; [|by intros [? _]]. intros He.
      apply (f_equal (fun m : Values => m !! "access_key")) in He.
      by simplify_map_eq.
    + tauto.
  - intros req Hreq. apply request_URL in Hreq as (rel & req0 & Hrel & Hnew).
    exists rel, req0. split; [|done].
    subst q. set (q := withAccessKey c (query c attributes)) in *.
    assert ((if decide (q = ∅) then "" else "?" +:+ Values_Encode q)
            = (if decide (0 < size q)%nat
               then "?" +:+ Values_Encode q else "")) as ->; [|done].
    destruct (decide (q = ∅)) as [He|Hne]; case_decide as Hsz; try done.
    + rewrite He, map_size_empty in Hsz. lia.
    + destruct Hne. apply map_size_empty_iff. lia.
Qed.

(** ** More on the calls *)

(** X7: what a call does to the outside. When the request cannot be
    built nothing is sent and the error of the build is returned; when the
    transport fails its error is returned as it is and no body is touched;
    otherwise one request was sent, and the body of the response is
    discarded and then closed, after the decoding when there is one. *)
Theorem call_trace_shape `{GoLib} :
  forall (c : Client) (k : call),
    match request c (callPath c k) (query c (callAttributes k)) with
    | inr e => run c k = (Return None (Some e), [])
    | inl req =>
        match Do (httpClient c) req with
        | inr e => run c k = (Return None (Some e), [EvSend req])
        | inl resp =>
            exists o,
              run c k = (o, [EvSend req; EvDiscard; EvClose])
              \/ run c k = (o, [EvSend req; EvDecode (Body resp);
                                EvDiscard; EvClose])
        end
    end.
Proof.
  intros c k. rewrite run_get. unfold get.
  destruct (request c _ _) as [req|e]; [|done].
  unfold do. destruct (Do (httpClient c) req) as [resp|e]; [|done].
  destruct (responseError (Some resp)) as [e|]; [eauto|].
  destruct (json_Decode (Body resp)) as [r0 [e|]]; eauto.
Qed.

Lemma responseError_None resp :
  responseError (Some resp) = None <-> StatusCode resp = 200.
Proof.
  unfold responseError, http_StatusOK, http_StatusNotFound,
    http_StatusUnprocessableEntity.
  destruct (StatusCode resp =? 200) eqn:E; [apply Z.eqb_eq in E; done|].
  apply Z.eqb_neq in E. by repeat case_match.
Qed.

Lemma responseError_Some resp e :
  responseError (Some resp) = Some e ->
  StatusCode resp <> 200
  /\ e = (if decide (StatusCode resp = 404) then ErrNotFound
          else if decide (StatusCode resp = 422) then ErrUnprocessableEntity
          else ErrUnexpectedStatus).
Proof.
  unfold responseError, http_StatusOK, http_StatusNotFound,
    http_StatusUnprocessableEntity.
  destruct (Z.eqb_spec (StatusCode resp) 200) as [|E200]; [done|].
  destruct (Z.eqb_spec (StatusCode resp) 404) as [|E404];
    [|destruct (Z.eqb_spec (StatusCode resp) 422) as [|E422]];
    intros [= <-]; repeat case_decide; done.
Qed.

(** X8: a call returns a response only when the status is 200 and the
    body decoded without error; the error is then nil. *)
Theorem call_succeeds_only_on_200 `{GoLib} :
  forall (c : Client) (k : call) (r : Response) (err : option error)
         (evs : list event),
    run c k = (Return (Some r) err, evs) ->
    err = None
    /\ exists req resp,
         request c (callPath c k) (query c (callAttributes k)) = inl req
         /\ Do (httpClient c) req = inl resp
         /\ StatusCode resp = 200
         /\ (json_Decode (Body resp)).2 = None
         /\ evs = [EvSend req; EvDecode (Body resp); EvDiscard; EvClose].
Proof.
  intros c k r err evs. rewrite run_get. unfold get.
  destruct (request c _ _) as [req|e] eqn:Hreq; [|done].
  unfold do. destruct (Do (httpClient c) req) as [resp|e] eqn:Hdo; [|done].
  destruct (responseError (Some resp)) as [e|] eqn:Hst; [done|].
  destruct (json_Decode (Body resp)) as [r0 [e|]] eqn:Hdec; [done|].
  intros [= <- <- <-]. split; [done|]. exists req, resp.
  rewrite Hdec. by apply responseError_None in Hst.
Qed.

Lemma call_succeeds_only_on_200_witness :
  exists req resp,
    Do (httpClient Test.client) req = inl resp /\ StatusCode resp = 200.
Proof.
  pose (k := CallAt (time_Date 2012 3 28 0 0 0 0 time_UTC) []).
  assert (run Test.client k
          = (Return (Some (Test.resultOf (run Test.client k))) None,
             (run Test.client k).2)) as Hrun
    by (vm_compute; reflexivity).
  destruct (call_succeeds_only_on_200 Test.client k _ _ _ Hrun)
    as (_ & req & resp & _ & Hdo & H200 & _).
  exists req, resp. split; assumption.
Defined.

(** X9: the error of a call is the error of the build of the request, or
    the error of the transport, or [ErrNotFound] for the status 404,
    [ErrUnprocessableEntity] for 422, [ErrUnexpectedStatus] for a status
    other than 200, 404 and 422, or, for the status 200, the error of the
    decoder as it is. *)
Theorem call_error_origin `{GoLib} :
  forall (c : Client) (k : call) (e : error) (evs : list event),
    run c k = (Return None (Some e), evs) ->
    request c (callPath c k) (query c (callAttributes k)) = inr e
    \/ exists req,
         request c (callPath c k) (query c (callAttributes k)) = inl req
         /\ (Do (httpClient c) req = inr e
             \/ exists resp,
                  Do (httpClient c) req = inl resp
                  /\ ((StatusCode resp = 404 /\ e = ErrNotFound)
                      \/ (StatusCode resp = 422
                          /\ e = ErrUnprocessableEntity)
                      \/ (StatusCode resp <> 200 /\ StatusCode resp <> 404
                          /\ StatusCode resp <> 422
                          /\ e = ErrUnexpectedStatus)
                      \/ (StatusCode resp = 200
                          /\ (json_Decode (Body resp)).2 = Some e))).
Proof.
  intros c k e evs. rewrite run_get. unfold get.
  destruct (request c _ _) as [req|e'] eqn:Hreq; [|intros [= ->]; by left].
  intros Hrun. right. exists req. split; [done|]. revert Hrun. unfold do.
  destruct (Do (httpClient c) req) as [resp|e'] eqn:Hdo;
    [|intros [= ->]; by left].
  intros Hrun. right. exists resp. split; [done|]. revert Hrun.
  destruct (responseError (Some resp)) as [e'|] eqn:Hst.
  - intros [= ->]. apply responseError_Some in Hst as [H200 ->].
    repeat case_decide; auto 10.
  - apply responseError_None in Hst.
    destruct (json_Decode (Body resp)) as [r0 [e'|]] eqn:Hdec; [|done].
    intros [= ->]. auto 10.
Qed.

Lemma call_error_origin_witness :
  exists req resp,
    Do (httpClient Test.client) req = inl resp
    /\ StatusCode resp = 200
    /\ (json_Decode (Body resp)).2 = Some (LibError "json" Test.notJSON).
Proof.
  pose (k := CallAt (time_Date 2000 1 1 0 0 0 0 time_UTC) []).
  assert (run Test.client k
          = (Return None (Some (LibError "json" Test.notJSON)),
             (run Test.client k).2)) as Hrun
    by (vm_compute; reflexivity).
  destruct (call_error_origin Test.client k _ _ Hrun)
    as [Hreq|(req & Hreq & [Hdo|(resp & Hdo & Hcases)])].
  - vm_compute in Hreq. discriminate Hreq.
  - vm_compute in Hreq. injection Hreq as <-.
    vm_compute in Hdo. discriminate Hdo.
  - exists req, resp. split; [exact Hdo|].
    vm_compute in Hreq. injection Hreq as <-.
    vm_compute in Hdo. injection Hdo as <-.
    destruct Hcases as [[H404 _]|[[H422 _]|[(_ & _ & _ & He)|Hdec]]].
    + discriminate H404.
    + discriminate H422.
    + discriminate He.
    + exact Hdec.
Defined.

Lemma civilDate_valid days :
  let '(y, m, d) := civilDate days in
  1 <= m <= 12 /\ 1 <= d <= daysIn m y.
Proof.
  unfold civilDate. cbv zeta.
  set (z := days + 719468).
  set (era := z / 146097).
  set (doe := z - era * 146097).
  assert (0 <= doe < 146097) as Hdoe by (subst doe era; zdiv).
  clearbody doe era. clear z.
  set (yoe := (doe - doe / 1460 + doe / 36524 - doe / 146096) / 365).
  set (doy := doe - (365 * yoe + yoe / 4 - yoe / 100)).
  assert (0 <= yoe <= 399) as Hyoe by (subst yoe; zdiv).
  assert (0 <= doy /\ doy < 365 + (yoe + 1) / 4 - (yoe + 1) / 100
                               + (yoe + 1) / 400 - (yoe / 4 - yoe / 100))
    as Hdoy by (subst doy yoe; zdiv).
  clearbody doy. clearbody yoe.
  set (mp := (5 * doy + 2) / 153).
  assert (0 <= mp <= 11 /\ 153 * mp <= 5 * doy + 2 < 153 * (mp + 1))
    as [Hmp Hmpd] by (subst mp; zdiv).
  clearbody mp.
  set (d := doy - (153 * mp + 2) / 5 + 1).
  assert (1 <= d <= 31) as Hd by (subst d; zdiv).
  set (m := if mp <? 10 then mp + 3 else mp - 9).
  assert ((mp < 10 /\ m = mp + 3) \/ (10 <= mp /\ m = mp - 9)) as Hmdef
    by (subst m; destruct (Z.ltb_spec mp 10); lia).
  clearbody m.
  set (y := if m <=? 2 then yoe + era * 400 + 1 else yoe + era * 400).
  assert ((m <= 2 /\ y = yoe + era * 400 + 1)
          \/ (2 < m /\ y = yoe + era * 400)) as Hydef
    by (subst y; destruct (Z.leb_spec m 2); lia).
  clearbody y.
  split; [lia|]. split; [lia|].
  unfold daysIn.
  destruct (isLeap y) eqn:Hleap.
  - apply isLeap_true in Hleap.
    destruct (Z.eqb_spec m 2); cbn [andb]; [subst d; zdiv|].
    destruct (Z.eqb_spec m 4), (Z.eqb_spec m 6), (Z.eqb_spec m 9),
      (Z.eqb_spec m 11); cbn [orb];
      try (destruct (Z.leb_spec 1 m); destruct (Z.leb_spec m 12);
           cbn [andb]);
      subst d; zdiv.
  - assert (~ (y mod 4 = 0 /\ (y mod 100 <> 0 \/ y mod 400 = 0))) as Hnl
      by (rewrite <- isLeap_true; congruence).
    rewrite andb_false_r. destruct (Z.eqb_spec m 2); [subst d; zdiv|].
    destruct (Z.eqb_spec m 4), (Z.eqb_spec m 6), (Z.eqb_spec m 9),
      (Z.eqb_spec m 11); cbn [orb];
      try (destruct (Z.leb_spec 1 m); destruct (Z.leb_spec m 12);
           cbn [andb]);
      subst d; zdiv.
Qed.

Lemma unquoteFrom_plain c rest :
  plainByte c = true ->
  unquoteFrom 0 (String c rest) = emit (String c "") (unquoteFrom 0 rest).
Proof.
  unfold plainByte. cbv zeta. rewrite !andb_true_iff, !negb_true_iff.
  intros [[[H32 H128] H34] H92]. cbn [unquoteFrom]. cbv zeta.
  rewrite H34, H92, H128.
  destruct (Z.ltb_spec (Z.of_N (N_of_ascii c)) 32) as [Hlt|]; [|done].
  apply Z.leb_le in H32. lia.
Qed.

Lemma unquoteFrom_allPlain s tail :
  allPlain s = true ->
  unquoteFrom 0 (s +:+ String (byteOf 34) tail) = Some (s, tail).
Proof.
  induction s as [|c s IH]; [done|].
  cbn [allPlain]. rewrite andb_true_iff. intros [Hc Hs].
  by rewrite string_app_cons, unquoteFrom_plain, IH.
Qed.

Lemma json_scan_jsonString s :
  allPlain s = true -> json_scan (jsonString s) = JSONString s.
Proof.
  intros Hs. unfold json_scan, jsonString. cbn [skipSpace].
  change (isSpace (byteOf 34)) with false. cbv iota.
  change (N_of_ascii (byteOf 34) =? 34)%N with true. cbv iota.
  by rewrite unquoteFrom_allPlain.
Qed.

Lemma plainByte_digitChar k : 0 <= k <= 9 -> plainByte (digitChar k) = true.
Proof.
  intros Hk.
  assert (k = 0 \/ k = 1 \/ k = 2 \/ k = 3 \/ k = 4 \/ k = 5 \/ k = 6
          \/ k = 7 \/ k = 8 \/ k = 9) as Hcases by lia.
  repeat (destruct Hcases as [->|Hcases]; [by vm_compute|]).
  subst. by vm_compute.
Qed.

Lemma allPlain_date y m d :
  0 <= y <= 9999 -> 0 <= m <= 99 -> 0 <= d <= 99 ->
  allPlain (spec_yyyy_mm_dd y m d) = true.
Proof.
  intros Hy Hm Hd. unfold spec_yyyy_mm_dd. cbn [allPlain].
  rewrite !plainByte_digitChar by zdiv. done.
Qed.

(** X10: for every calendar date of the years 0 to 9999,
    [Date.UnmarshalJSON] reads the quoted text YYYY-MM-DD of that date and
    leaves that date at 00:00:00 in UTC, whatever date it was given. *)
Theorem Date_UnmarshalJSON_reads_dates :
  forall (d0 : Date) (y m d : Z),
    spec_validDate y m d ->
    Date_UnmarshalJSON d0 (jsonString (spec_yyyy_mm_dd y m d))
    = (mkDate (time_Date y m d 0 0 0 0 time_UTC), None).
Proof.
  intros d0 y m d Hv.
  pose proof Hv as (Hy & Hm & Hd). pose proof (daysIn_le_31 m y) as H31.
  unfold Date_UnmarshalJSON, json_Unmarshal_string,
    time_ParseInLocation_20060102.
  rewrite json_scan_jsonString by (apply allPlain_date; lia).
  by rewrite (proj2 (parseFields_Some _ y m d) (conj eq_refl Hv)).
Qed.

Lemma Date_UnmarshalJSON_reads_dates_witness :
  Date_UnmarshalJSON Date_zero (jsonString (spec_yyyy_mm_dd 2016 2 29))
  = (mkDate (time_Date 2016 2 29 0 0 0 0 time_UTC), None).
Proof.
  apply Date_UnmarshalJSON_reads_dates. unfold spec_validDate.
  change (daysIn 2 2016) with 29. lia.
Defined.

(** X11: the date that [At] puts in the path, sent back by a server as a
    JSON string, is read by [Date.UnmarshalJSON] as the same calendar date,
    at 00:00:00 in UTC (years 0 to 9999). *)
Theorem date_decodes_back :
  forall (c : Client) (t : time_Time) (d0 : Date) (y m d : Z),
    Time_Date t = (y, m, d) ->
    0 <= y <= 9999 ->
    exists d1,
      Date_UnmarshalJSON d0 (jsonString (date c t)) = (d1, None)
      /\ Time_Date (Date_Time d1) = Time_Date t
      /\ Time_Clock (Date_Time d1) = (0, 0, 0)
      /\ loc (Date_Time d1) = time_UTC.
Proof.
  intros c t d0 y m d HD Hy.
  pose proof (civilDate_valid (Time_abs t / secondsPerDay)) as Hv.
  rewrite <- civilDate_Time_Date, HD in Hv. destruct Hv as [Hm Hd].
  pose proof (daysIn_le_31 m y) as H31.
  exists (mkDate (time_Date y m d 0 0 0 0 time_UTC)).
  unfold date. rewrite (Time_Format_valid t y m d) by done.
  unfold Date_UnmarshalJSON, json_Unmarshal_string,
    time_ParseInLocation_20060102.
  rewrite json_scan_jsonString by (apply allPlain_date; lia).
  rewrite (proj2 (parseFields_Some _ y m d)
             (conj eq_refl (conj Hy (conj Hm Hd)))).
  split; [done|]. rewrite HD. cbn [Date_Time].
  destruct (Time_Date_time_Date y m d 0 0 0 0 0 Hm Hd) as [H1 H2];
    [lia..|].
  done.
Qed.

Lemma date_decodes_back_witness :
  exists d1,
    Date_UnmarshalJSON Date_zero (jsonString (date Test.client lateEvening))
    = (d1, None)
    /\ Time_Date (Date_Time d1) = Time_Date lateEvening
    /\ Time_Clock (Date_Time d1) = (0, 0, 0)
    /\ loc (Date_Time d1) = time_UTC.
Proof.
  apply (date_decodes_back Test.client lateEvening Date_zero 2012 3 28);
    [vm_compute; reflexivity|lia].
Defined.



Lemma skipSpace_allSpace pre s :
  allSpace pre = true -> skipSpace (pre +:+ s) = skipSpace s.
Proof.
  induction pre as [|c pre IH]; [done|].
  cbn [allSpace]. rewrite andb_true_iff. intros [Hc Hpre].
  rewrite string_app_cons. cbn [skipSpace]. rewrite Hc. by apply IH.
Qed.

Lemma skipSpace_all s : allSpace s = true -> skipSpace s = "".
Proof.
  induction s as [|c s IH]; [done|].
  cbn [allSpace skipSpace]. rewrite andb_true_iff. intros [-> Hs]. by apply IH.
Qed.

(** X13: [Date.UnmarshalJSON] leaves the date as it was and returns an
    error on the literal null (a time parsing error, of the empty string:
    null is no JSON error), on an input of white space only, and on an
    input whose first byte after the white space is neither a quote nor
    the letter n (a JSON error). *)
Theorem Date_UnmarshalJSON_rejects_non_strings :
  forall (d : Date) (pre post rest : string) (c : ascii),
    allSpace pre = true ->
    (allSpace post = true ->
     Date_UnmarshalJSON d (pre +:+ "null" +:+ post)
     = (d, Some (LibError "time" "")))
    /\ Date_UnmarshalJSON d pre = (d, Some (LibError "json" pre))
    /\ (isSpace c = false -> c <> byteOf 34 -> c <> "n"%char ->
        Date_UnmarshalJSON d (pre +:+ String c rest)
        = (d, Some (LibError "json" (pre +:+ String c rest)))).
Proof.
  intros d pre post rest c Hpre.
  unfold Date_UnmarshalJSON, json_Unmarshal_string, json_scan.
  split; [|split].
  - intros Hpost. rewrite skipSpace_allSpace by done.
    change ("null" +:+ post)
      with (String "n" (String "u" (String "l" (String "l" post)))).
    cbn [skipSpace]. change (isSpace "n") with false. cbv iota.
    change (N_of_ascii "n" =? 34)%N with false. cbv iota.
    cbn [takeBytes dropBytes]. rewrite String.eqb_refl, Hpost. done.
  - by rewrite skipSpace_all.
  - intros Hc Hq Hn. rewrite skipSpace_allSpace by done.
    cbn [skipSpace]. rewrite Hc.
    destruct (N.eqb_spec (N_of_ascii c) 34) as [E|_].
    { destruct Hq. rewrite <- (ascii_N_embedding c), E. done. }
    assert (String.eqb (takeBytes 4 (String c rest)) "null" = false) as ->;
      [|done].
    apply String.eqb_neq. cbn [takeBytes]. intros [= -> _]. done.
Qed.

Lemma Date_UnmarshalJSON_rejects_non_strings_witness :
  Date_UnmarshalJSON Date_zero " false"
  = (Date_zero, Some (LibError "json" " false")).
Proof.
  apply (Date_UnmarshalJSON_rejects_non_strings Date_zero " " "" "alse" "f");
    [reflexivity|reflexivity|discriminate|discriminate].
Defined.

(** X14: the default client has the default base URL and the access key
    of the environment, and sends access_key exactly when that key is not
    empty; [ExratesClient] has no access key and never sends one, and its
    base URL is the parsed URL of the service, or the default when that
    does not parse. *)
Theorem package_clients `{GoLib} :
  forall (getenv : string -> string) (attributes : list Values),
    let key := getenv "FIXER_ACCESS_KEY" in
    accessKey (DefaultClient getenv) = key
    /\ baseURL (DefaultClient getenv) = baseURL (NewClient [])
    /\ withAccessKey (DefaultClient getenv)
         (query (DefaultClient getenv) attributes) !! "access_key"
       = (if decide (key = "") then None else Some [key])
    /\ accessKey ExratesClient = ""
    /\ withAccessKey ExratesClient (query ExratesClient attributes)
       = query ExratesClient attributes
    /\ query ExratesClient attributes !! "access_key" = None
    /\ baseURL ExratesClient
       = match url_Parse "https://api.exchangeratesapi.io" with
         | inl u => u
         | inr _ => baseURL (NewClient [])
         end.
Proof.
  intros getenv attributes key.
  assert (accessKey ExratesClient = "") as Hex.
  { unfold ExratesClient, NewClient, BaseURL. cbn [foldl].
    by destruct (url_Parse _). }
  repeat split; try done.
  - unfold withAccessKey, Values_Set.
    change (accessKey (DefaultClient getenv)) with key.
    case_decide as Hk; destruct (decide (key = "")) as [He|Hne];
      try done; simplify_map_eq; [done|].
    by apply query_lookup_other.
  - unfold withAccessKey. rewrite Hex. by case_decide.
  - by apply query_lookup_other.
  - unfold ExratesClient, NewClient, BaseURL. cbn [foldl].
    by destruct (url_Parse _).
Qed.

(** X15: a request that [request] builds has the method and the URL of
    the request of [http.NewRequest]; it adds the value application/json
    under Accept and the user agent of the client under User-Agent, and
    leaves every other header as it was. *)
Theorem request_adds_two_headers `{GoLib} :
  forall (c : Client) (path : string) (q : Values) (req : http_Request),
    request c path q = inl req ->
    exists rel req0,
      http_NewRequest "GET"
        (url_String (url_ResolveReference (baseURL c) rel)) = inl req0
      /\ Req_Method req = Req_Method req0
      /\ Req_URL req = Req_URL req0
      /\ Req_Header req !! "Accept"
         = Some (default [] (Req_Header req0 !! "Accept")
                   ++ ["application/json"])%list
      /\ Req_Header req !! "User-Agent"
         = Some (default [] (Req_Header req0 !! "User-Agent")
                   ++ [userAgent c])%list
      /\ forall key, key ≠ "Accept" -> key ≠ "User-Agent" ->
           Req_Header req !! key = Req_Header req0 !! key.
Proof.
  intros c path q req. unfold request. cbv zeta.
  destruct (url_Parse _) as [rel|e]; [|done].
  destruct (http_NewRequest _ _) as [req0|e] eqn:Hnew; [|done].
  intros [= <-]. exists rel, req0. cbn [Req_Method Req_URL Req_Header].
  unfold Header_Add. repeat split; try done.
  - by simplify_map_eq.
  - by simplify_map_eq.
  - intros key Ha Hu. by simplify_map_eq.
Qed.

Lemma request_adds_two_headers_witness :
  exists req,
    request Test.client "/latest" ∅ = inl req
    /\ Req_Header req !! "User-Agent" = Some [userAgent Test.client]
    /\ Req_Header req !! "Accept" = Some ["application/json"].
Proof.
  destruct (request Test.client "/latest" ∅) as [req|e] eqn:Hreq;
    [|vm_compute in Hreq; discriminate Hreq].
  exists req. split; [reflexivity|].
  destruct (request_adds_two_headers Test.client "/latest" ∅ req Hreq)
    as (rel & req0 & Hnew & _ & _ & Hacc & Hua & _).
  rewrite Hacc, Hua. cbn [http_NewRequest Test.lib] in Hnew.
  unfold Test.newRequest in Hnew.
  destruct (Test.parse _) as [u|e]; [|discriminate Hnew].
  injection Hnew as <-. split; reflexivity.
Defined.
